(** * A model of the scout caching and scraping core

    Shallow embedding of [src/scrapers/cache.py], [src/scrapers/source.py],
    [src/scrapers/scraper.py] and [src/scrapers/twitter_scraper.py].

    Python values are the inductive [pyval]; Python exceptions are [exn]
    and a fallible computation returns [res A = exn + A] (the left side is
    a raised exception).  Instants ([datetime]) are integers counting
    microseconds, so [timedelta(seconds=t)] is [t * 1000000].  A clock
    reading [datetime.now()] is an explicit argument of the operation that
    performs it. *)

From Stdlib Require Import ZArith Lia Ascii String List Sorting.Permutation
  Sorting.Sorted.
From stdpp Require Import base gmap strings list.
Import ListNotations.

Local Open Scope Z_scope.

(** ** Python values and exceptions *)

Set Warnings "-register-all".

Inductive pyval : Type :=
| PyNone
| PyBool (b : bool)
| PyInt (z : Z)
| PyStr (s : string)
| PyList (l : list pyval)
| PyTuple (l : list pyval)
| PyDict (kvs : list (pyval * pyval)).  (* insertion-ordered items *)

Inductive exn : Type :=
| TypeError (msg : string)
| ValueError (msg : string)
| KeyError
| AssertionError
| AttributeError (msg : string)
| RedisError
| JSONDecodeError
| ClientError (msg : string).   (* a fault raised by the upstream client *)

Definition res (A : Type) : Type := (exn + A)%type.
Definition ret {A} (a : A) : res A := inr a.
Definition raise {A} (e : exn) : res A := inl e.
Definition bind {A B} (m : res A) (k : A -> res B) : res B :=
  match m with inl e => inl e | inr a => k a end.
Notation "'let?' x := m 'in' k" := (bind m (fun x => k))
  (at level 200, x name, m at level 100, right associativity).

(** Characters written by code point, so that no string literal needs
    an escaped quote. *)
Definition chr (n : nat) : ascii := ascii_of_nat n.
Definition str1 (c : ascii) : string := String c EmptyString.
Definition dq : string := str1 (chr 34).   (* the double quote *)
Definition bsl : string := str1 (chr 92).  (* the backslash *)

Fixpoint concat_str (l : list string) : string :=
  match l with [] => EmptyString | s :: l' => String.append s (concat_str l') end.

Fixpoint join_str (sep : string) (l : list string) : string :=
  match l with
  | [] => EmptyString
  | [s] => s
  | s :: l' => String.append s (String.append sep (join_str sep l'))
  end.

(** Python's [==] on values: [bool] is a subclass of [int], so [True == 1]. *)
Definition py_num (v : pyval) : option Z :=
  match v with
  | PyBool b => Some (if b then 1 else 0)
  | PyInt z => Some z
  | _ => None
  end.

Fixpoint py_eq (a b : pyval) : bool :=
  match a, b with
  | PyNone, PyNone => true
  | (PyBool _ | PyInt _), (PyBool _ | PyInt _) =>
      match py_num a, py_num b with Some x, Some y => Z.eqb x y | _, _ => false end
  | PyStr s, PyStr t => String.eqb s t
  | PyList l, PyList m | PyTuple l, PyTuple m =>
      (fix go (l m : list pyval) : bool :=
         match l, m with
         | [], [] => true
         | x :: l', y :: m' => py_eq x y && go l' m'
         | _, _ => false
         end) l m
  | PyDict d, PyDict e =>
      Nat.eqb (length d) (length e) &&
      (fix go (d : list (pyval * pyval)) : bool :=
         match d with
         | [] => true
         | (k, v) :: d' =>
             existsb (fun kv' => py_eq k (fst kv') && py_eq v (snd kv')) e && go d'
         end) d
  | _, _ => false
  end.

(** Python's [<]: strings by code point, numbers numerically, sequences of
    the same kind lexicographically (first unequal position decides);
    every other pair raises [TypeError]. *)
Fixpoint py_lt (a b : pyval) : res bool :=
  match a, b with
  | PyStr s, PyStr t => ret (String.ltb s t)
  | (PyBool _ | PyInt _), (PyBool _ | PyInt _) =>
      match py_num a, py_num b with
      | Some x, Some y => ret (Z.ltb x y)
      | _, _ => raise (TypeError "'<' not supported")
      end
  | PyList l, PyList m | PyTuple l, PyTuple m =>
      (fix go (l m : list pyval) : res bool :=
         match l, m with
         | [], [] => ret false
         | [], _ :: _ => ret true
         | _ :: _, [] => ret false
         | x :: l', y :: m' => if py_eq x y then go l' m' else py_lt x y
         end) l m
  | _, _ => raise (TypeError "'<' not supported")
  end.

(** [<] on the 2-tuples [(key, value)] produced by [dict.items()]. *)
Definition item_lt (x y : pyval * pyval) : res bool :=
  if py_eq (fst x) (fst y) then
    (if py_eq (snd x) (snd y) then ret false else py_lt (snd x) (snd y))
  else py_lt (fst x) (fst y).

(** [sorted(items)]: [list.sort] is modelled as an insertion sort that
    uses only [<].  The items of a dict never compare equal (its keys are
    distinct), so on them any correct sort yields this order.  The sort
    carries a payload [A] next to each item (see [json_enc]). *)
Fixpoint sort_insert {A} (f : A -> pyval * pyval) (x : A) (l : list A)
  : res (list A) :=
  match l with
  | [] => ret [x]
  | y :: l' =>
      let? b := item_lt (f x) (f y) in
      if b then ret (x :: y :: l')
      else let? r := sort_insert f x l' in ret (y :: r)
  end.

Fixpoint sort_by {A} (f : A -> pyval * pyval) (l : list A) : res (list A) :=
  match l with
  | [] => ret []
  | x :: l' => let? s := sort_by f l' in sort_insert f x s
  end.

Definition py_sorted (l : list (pyval * pyval)) : res (list (pyval * pyval)) :=
  sort_by (fun x => x) l.

(** ** [json.dumps(v, sort_keys=sk, default=str)]

    The C encoder of CPython with its defaults: [ensure_ascii=True],
    separators [", "] and [": "].  No [pyval] needs [default]. *)

(** [str(int)]: decimal digits, with a leading minus sign. *)
Definition digit_char (d : Z) : ascii := chr (Z.to_nat (48 + d)).

Fixpoint dec_digits (fuel : nat) (n : Z) (acc : string) : string :=
  match fuel with
  | O => acc
  | S f =>
      let acc' := String (digit_char (n mod 10)) acc in
      if n <? 10 then acc' else dec_digits f (n / 10) acc'
  end.

Definition z_dec (z : Z) : string :=
  let fuel := S (Z.to_nat (Z.log2 (Z.abs z))) in
  if z <? 0 then String "-" (dec_digits fuel (- z) EmptyString)
  else dec_digits fuel z EmptyString.

Definition hex_char (d : nat) : ascii :=
  if Nat.ltb d 10 then chr (48 + d) else chr (87 + d).

Definition hex2 (n : nat) : string :=
  String (hex_char (Nat.div n 16)) (str1 (hex_char (Nat.modulo n 16))).

(** [ascii_escape_unichar]: the printable ASCII range [' '..'~'] is kept,
    except the quote and the backslash; the rest is escaped. *)
Definition json_char (c : ascii) : string :=
  let n := nat_of_ascii c in
  if Nat.eqb n 92 then String.append bsl bsl
  else if Nat.eqb n 34 then String.append bsl dq
  else if Nat.leb 32 n && Nat.leb n 126 then str1 c
  else if Nat.eqb n 8 then String.append bsl "b"
  else if Nat.eqb n 12 then String.append bsl "f"
  else if Nat.eqb n 10 then String.append bsl "n"
  else if Nat.eqb n 13 then String.append bsl "r"
  else if Nat.eqb n 9 then String.append bsl "t"
  else String.append bsl (String.append "u00" (hex2 n)).

Fixpoint json_chars (s : string) : string :=
  match s with
  | EmptyString => EmptyString
  | String c s' => String.append (json_char c) (json_chars s')
  end.

Definition json_quote (s : string) : string :=
  concat_str [dq; json_chars s; dq].

(** A dict key: [str] as is; [True], [False], [None] and [int] converted;
    any other key raises [TypeError] ([skipkeys=False]). *)
Definition json_key (k : pyval) : res string :=
  match k with
  | PyStr s => ret s
  | PyBool true => ret "true"
  | PyBool false => ret "false"
  | PyNone => ret "null"
  | PyInt z => ret (z_dec z)
  | _ => raise (TypeError "keys must be str, int, float, bool or None")
  end.

Fixpoint seq_res (l : list (res string)) : res (list string) :=
  match l with
  | [] => ret []
  | r :: l' => let? a := r in let? rest := seq_res l' in ret (a :: rest)
  end.

(** The encoding of a dict value is pure, so it is computed next to its
    item before sorting and only raised when the encoder reaches it, in
    the (possibly sorted) item order, after the key has been converted. *)
Fixpoint json_enc (sort_keys : bool) (v : pyval) : res string :=
  match v with
  | PyNone => ret "null"
  | PyBool b => ret (if b then "true" else "false")
  | PyInt z => ret (z_dec z)
  | PyStr s => ret (json_quote s)
  | PyList l | PyTuple l =>
      let? items := seq_res ((fix go (l : list pyval) : list (res string) :=
                                match l with
                                | [] => []
                                | x :: l' => json_enc sort_keys x :: go l'
                                end) l) in
      ret (concat_str ["["; join_str ", " items; "]"])
  | PyDict d =>
      let pre := (fix go (d : list (pyval * pyval))
                    : list ((pyval * pyval) * res string) :=
                    match d with
                    | [] => []
                    | (k, x) :: d' => ((k, x), json_enc sort_keys x) :: go d'
                    end) d in
      let? ordered := (if sort_keys then sort_by fst pre else ret pre) in
      let? items := seq_res (map (fun '((k, _), r) =>
                                    let? ks := json_key k in
                                    let? a := r in
                                    ret (concat_str [json_quote ks; ": "; a]))
                                 ordered) in
      ret (concat_str ["{"; join_str ", " items; "}"])
  end.

Definition json_dumps (v : pyval) (sort_keys : bool) : res string :=
  json_enc sort_keys v.

(** ** [hashlib.md5(...).hexdigest()] (RFC 1321) over bytes as [Z] *)

Definition w32 : Z := 2 ^ 32.
Definition mask32 : Z := w32 - 1.

Definition md5_K : list Z :=
  [3614090360; 3905402710; 606105819; 3250441966; 4118548399; 1200080426; 2821735955; 4249261313; 1770035416; 2336552879; 4294925233; 2304563134; 1804603682; 4254626195; 2792965006; 1236535329; 4129170786; 3225465664; 643717713; 3921069994; 3593408605; 38016083; 3634488961; 3889429448; 568446438; 3275163606; 4107603335; 1163531501; 2850285829; 4243563512; 1735328473; 2368359562; 4294588738; 2272392833; 1839030562; 4259657740; 2763975236; 1272893353; 4139469664; 3200236656; 681279174; 3936430074; 3572445317; 76029189; 3654602809; 3873151461; 530742520; 3299628645; 4096336452; 1126891415; 2878612391; 4237533241; 1700485571; 2399980690; 4293915773; 2240044497; 1873313359; 4264355552; 2734768916; 1309151649; 4149444226; 3174756917; 718787259; 3951481745].

Definition md5_S : list Z :=
  [7; 12; 17; 22; 7; 12; 17; 22; 7; 12; 17; 22; 7; 12; 17; 22;
   5; 9; 14; 20; 5; 9; 14; 20; 5; 9; 14; 20; 5; 9; 14; 20;
   4; 11; 16; 23; 4; 11; 16; 23; 4; 11; 16; 23; 4; 11; 16; 23;
   6; 10; 15; 21; 6; 10; 15; 21; 6; 10; 15; 21; 6; 10; 15; 21].

Definition rotl32 (x c : Z) : Z :=
  Z.land (Z.lor (Z.shiftl x c) (Z.shiftr x (32 - c))) mask32.

Definition not32 (x : Z) : Z := Z.lxor x mask32.

(** Little-endian bytes of a [w]-byte integer. *)
Fixpoint le_bytes (w : nat) (x : Z) : list Z :=
  match w with O => [] | S w' => (x mod 256) :: le_bytes w' (x / 256) end.

Fixpoint le_word (bs : list Z) : Z :=
  match bs with [] => 0 | b :: bs' => b + 256 * le_word bs' end.

(** Message padding: [0x80], zeros up to 56 mod 64, the bit length. *)
Definition md5_pad (msg : list Z) : list Z :=
  let n := Z.of_nat (length msg) in
  msg ++ [128] ++ repeat 0 (Z.to_nat ((55 - n) mod 64))
      ++ le_bytes 8 ((8 * n) mod 2 ^ 64).

Fixpoint chunks (fuel k : nat) (l : list Z) : list (list Z) :=
  match fuel with
  | O => []
  | S f => match l with [] => [] | _ => firstn k l :: chunks f k (skipn k l) end
  end.

Definition md5_round (m : list Z) (st : Z * Z * Z * Z) (i : nat) : Z * Z * Z * Z :=
  let '(a, b, c, d) := st in
  let '(fv, g) :=
    if Nat.ltb i 16 then (Z.lor (Z.land b c) (Z.land (not32 b) d), i)
    else if Nat.ltb i 32 then (Z.lor (Z.land d b) (Z.land (not32 d) c), Nat.modulo (5 * i + 1) 16)
    else if Nat.ltb i 48 then (Z.lxor b (Z.lxor c d), Nat.modulo (3 * i + 5) 16)
    else (Z.lxor c (Z.lor b (not32 d)), Nat.modulo (7 * i) 16) in
  let f' := (fv + a + nth i md5_K 0 + nth g m 0) mod w32 in
  (d, (b + rotl32 f' (nth i md5_S 0)) mod w32, b, c).

Definition md5_block (st : Z * Z * Z * Z) (block : list Z) : Z * Z * Z * Z :=
  let m := map le_word (chunks 16 4 block) in
  let '(a', b', c', d') := fold_left (md5_round m) (seq 0 64) st in
  let '(a, b, c, d) := st in
  ((a + a') mod w32, (b + b') mod w32, (c + c') mod w32, (d + d') mod w32).

Definition md5 (msg : list Z) : list Z :=
  let padded := md5_pad msg in
  let '(a, b, c, d) :=
    fold_left md5_block (chunks (length padded) 64 padded)
      (1732584193, 4023233417, 2562383102, 271733878) in
  le_bytes 4 a ++ le_bytes 4 b ++ le_bytes 4 c ++ le_bytes 4 d.

Definition hexdigest (bs : list Z) : string :=
  concat_str (map (fun b => hex2 (Z.to_nat b)) bs).

(** [str.encode()] (UTF-8); the strings hashed here are the ASCII output
    of [json.dumps], whose UTF-8 bytes are its character codes. *)
Fixpoint encode (s : string) : list Z :=
  match s with
  | EmptyString => []
  | String c s' => Z.of_nat (nat_of_ascii c) :: encode s'
  end.

Definition md5_hexdigest (s : string) : string := hexdigest (md5 (encode s)).

(** ** [create_cache_key], called with positional [args] and keyword [kwargs]

    Keyword arguments are a dict with string keys, given as its
    insertion-ordered items. *)
Definition kwargs_items (kwargs : list (string * pyval)) : list (pyval * pyval) :=
  map (fun '(k, v) => (PyStr k, v)) kwargs.

Definition create_cache_key (args : list pyval) (kwargs : list (string * pyval))
  : res string :=
  let? items := py_sorted (kwargs_items kwargs) in
  let key_data := PyDict [(PyStr "args", PyTuple args);
                          (PyStr "kwargs",
                           PyList (map (fun '(k, v) => PyTuple [k; v]) items))] in
  let? key_string := json_dumps key_data true in
  ret (md5_hexdigest key_string).

(** ** [MemoryCache]: the dicts [_cache] and [_expiry] *)

Record mcache : Type := MCache {
  mc_cache : gmap string pyval;
  mc_expiry : gmap string Z
}.

Definition MemoryCache_init : mcache := MCache ∅ ∅.

(** [timedelta(seconds=ttl)] in microseconds. *)
Definition seconds (t : Z) : Z := t * 1000000.

(** Python truthiness of [ttl : Optional[int]]: [None] and [0] are false. *)
Definition ttl_truthy (ttl : option Z) : bool :=
  match ttl with None => false | Some t => negb (Z.eqb t 0) end.

Definition is_expired (s : mcache) (key : string) (now : Z) : bool :=
  match mc_expiry s !! key with
  | None => false
  | Some e => Z.ltb e now          (* datetime.now() > self._expiry[key] *)
  end.

Definition in_cache (s : mcache) (key : string) : bool :=
  match mc_cache s !! key with Some _ => true | None => false end.

(** [get] returns the value ([PyNone] for Python's [None]) and the state,
    from which an absent or expired key has been removed. *)
Definition mc_get (s : mcache) (key : string) (now : Z) : pyval * mcache :=
  if negb (in_cache s key) || is_expired s key now then
    (PyNone, MCache (delete key (mc_cache s)) (delete key (mc_expiry s)))
  else
    match mc_cache s !! key with Some v => (v, s) | None => (PyNone, s) end.

Definition mc_set (s : mcache) (key : string) (value : pyval) (ttl : option Z)
    (now : Z) : mcache :=
  let c := <[key := value]> (mc_cache s) in
  if ttl_truthy ttl then
    MCache c (<[key := now + seconds (default 0 ttl)]> (mc_expiry s))
  else MCache c (delete key (mc_expiry s)).

Definition mc_delete (s : mcache) (key : string) : mcache :=
  MCache (delete key (mc_cache s)) (delete key (mc_expiry s)).

Definition mc_exists (s : mcache) (key : string) (now : Z) : bool :=
  in_cache s key && negb (is_expired s key now).

(** Client operations on a [MemoryCache], each at its own clock reading. *)
Inductive mc_op : Type :=
| OpGet (key : string) (now : Z)
| OpSet (key : string) (value : pyval) (ttl : option Z) (now : Z)
| OpDelete (key : string)
| OpExists (key : string) (now : Z).

Definition mc_step (s : mcache) (o : mc_op) : mcache :=
  match o with
  | OpGet k now => snd (mc_get s k now)
  | OpSet k v ttl now => mc_set s k v ttl now
  | OpDelete k => mc_delete s k
  | OpExists _ _ => s
  end.

Definition mc_run (s : mcache) (ops : list mc_op) : mcache := fold_left mc_step ops s.

(** [ops] neither sets nor deletes [key]. *)
Definition writes_key (key : string) (o : mc_op) : bool :=
  match o with
  | OpSet k _ _ _ | OpDelete k => String.eqb k key
  | _ => false
  end.

(** ** [CachedMethod] over a [MemoryCache]

    The decorated function is [func]: on its [n]-th invocation (counted
    from 0) with [args] and [kwargs] it returns [func n args kwargs], so
    it may answer differently each time.  The state is the cache and the
    number of invocations of [func] so far.  [args] includes [args[0]]
    (the bound [self]), which the key leaves out. *)
Record CachedMethod : Type := MkCachedMethod {
  cm_ttl : option Z;
  cm_key_prefix : string
}.

Definition pyfunc : Type := nat -> list pyval -> list (string * pyval) -> res pyval.

Definition is_none (v : pyval) : bool := match v with PyNone => true | _ => false end.

(** [f"{self.key_prefix}{func.__name__}:{create_cache_key(*args[1:], **kwargs)}"] *)
Definition cm_cache_key (cm : CachedMethod) (fname : string) (args : list pyval)
    (kwargs : list (string * pyval)) : res string :=
  let? ck := create_cache_key (tl args) kwargs in
  ret (concat_str [cm_key_prefix cm; fname; ":"; ck]).

(** One call of [wrapper]; [t_get] and [t_set] are the clock readings of
    [self.cache.get] and [self.cache.set]. *)
Definition cm_call (cm : CachedMethod) (fname : string) (func : pyfunc)
    (args : list pyval) (kwargs : list (string * pyval)) (t_get t_set : Z)
    (st : mcache * nat) : res pyval * (mcache * nat) :=
  let '(c, n) := st in
  match cm_cache_key cm fname args kwargs with
  | inl e => (inl e, st)
  | inr cache_key =>
      let '(cached_result, c1) := mc_get c cache_key t_get in
      if negb (is_none cached_result) then (ret cached_result, (c1, n))
      else
        match func n args kwargs with
        | inl e => (inl e, (c1, S n))
        | inr result => (ret result, (mc_set c1 cache_key result (cm_ttl cm) t_set, S n))
        end
  end.

(** ** [SourceAdapter]

    A Python object is its attribute table, listed in the order of
    [dir(obj)]; an attribute is callable or a plain value. *)
Definition pycallable : Type := list pyval -> list (string * pyval) -> res pyval.

Inductive attr : Type :=
| AttrCallable (f : pycallable)
| AttrValue (v : pyval).

Record pyobject : Type := MkObject {
  obj_class : string;
  obj_attrs : list (string * attr)
}.

Definition py_dir (o : pyobject) : list string := map fst (obj_attrs o).

Definition py_getattr (o : pyobject) (name : string) : res attr :=
  match find (fun na => String.eqb (fst na) name) (obj_attrs o) with
  | Some (_, a) => ret a
  | None => raise (AttributeError (concat_str ["'"; obj_class o;
                    "' object has no attribute '"; name; "'"]))
  end.

(** Calling an attribute: a non-callable one raises [TypeError]. *)
Definition call_attr (a : attr) (args : list pyval) (kwargs : list (string * pyval))
  : res pyval :=
  match a with
  | AttrCallable f => f args kwargs
  | AttrValue _ => raise (TypeError "object is not callable")
  end.

Definition starts_with_underscore (name : string) : bool :=
  match name with String c _ => Ascii.eqb c "_"%char | EmptyString => false end.

Record SourceAdapter : Type := MkSourceAdapter {
  sa_raw_source : pyobject;
  sa_methods : gmap string pycallable
}.

Definition introspect_methods (raw : pyobject) : res (gmap string pycallable) :=
  fold_left (fun acc name =>
               let? methods := acc in
               if starts_with_underscore name then ret methods
               else let? a := py_getattr raw name in
                    match a with
                    | AttrCallable f => ret (<[name := f]> methods)
                    | AttrValue _ => ret methods
                    end)
            (py_dir raw) (ret ∅).

Definition SourceAdapter_new (raw : pyobject) : res SourceAdapter :=
  let? methods := introspect_methods raw in
  ret (MkSourceAdapter raw methods).

(** [SourceAdapter.__call__(method_name, *args, **kwargs)] *)
Definition sa_call (a : SourceAdapter) (method_name : string) (args : list pyval)
    (kwargs : list (string * pyval)) : res pyval :=
  match sa_methods a !! method_name with
  | None => raise (AttributeError (concat_str ["Method '"; method_name;
                                               "' not found in source"]))
  | Some f => f args kwargs
  end.

(** ** A Redis server, as seen through [redis.Redis(decode_responses=True)]

    Every command raises [RedisError] (a [ConnectionError]) when the
    server is unreachable.  A key stores a string and an optional expiry
    instant; an expired key reads as missing. *)
Record rserver : Type := MkRServer {
  rs_up : bool;
  rs_store : gmap string (string * option Z)
}.

Definition r_live (e : option Z) (now : Z) : bool :=
  match e with None => true | Some t => Z.ltb now t end.

Definition r_get (srv : rserver) (key : string) (now : Z) : res (option string) :=
  if rs_up srv then
    match rs_store srv !! key with
    | Some (v, e) => ret (if r_live e now then Some v else None)
    | None => ret None
    end
  else raise RedisError.

Definition r_set (srv : rserver) (key value : string) : res rserver :=
  if rs_up srv then ret (MkRServer true (<[key := (value, None)]> (rs_store srv)))
  else raise RedisError.

(** [SETEX] with a non-positive time is refused by the server
    ([ResponseError], a [RedisError]). *)
Definition r_setex (srv : rserver) (key : string) (ttl : Z) (value : string) (now : Z)
  : res rserver :=
  if rs_up srv then
    if Z.leb ttl 0 then raise RedisError
    else ret (MkRServer true (<[key := (value, Some (now + seconds ttl))]> (rs_store srv)))
  else raise RedisError.

Definition r_delete (srv : rserver) (key : string) : res rserver :=
  if rs_up srv then ret (MkRServer true (delete key (rs_store srv)))
  else raise RedisError.

Definition r_exists (srv : rserver) (key : string) (now : Z) : res Z :=
  if rs_up srv then
    match rs_store srv !! key with
    | Some (_, e) => ret (if r_live e now then 1 else 0)
    | None => ret 0
    end
  else raise RedisError.

(** ** [RedisCache] ([set], [delete], [exists])

    An operation returns its outcome and the server state; a [try] block
    that catches the exception restores nothing, since no command in it
    has run when it raises. *)
Record RedisCache : Type := MkRedisCache { rc_key_prefix : string }.

Definition rc_make_key (rc : RedisCache) (key : string) : string :=
  String.append (rc_key_prefix rc) key.

(** [except (redis.RedisError, json.JSONDecodeError)] *)
Definition catches_redis_or_decode (e : exn) : bool :=
  match e with RedisError | JSONDecodeError => true | _ => false end.

Definition catches_redis (e : exn) : bool :=
  match e with RedisError => true | _ => false end.

Definition rc_set (rc : RedisCache) (srv : rserver) (key : string) (value : pyval)
    (ttl : option Z) (now : Z) : res unit * rserver :=
  let body :=
    let? serialized := json_dumps value false in
    if ttl_truthy ttl then r_setex srv (rc_make_key rc key) (default 0 ttl) serialized now
    else r_set srv (rc_make_key rc key) serialized in
  match body with
  | inr srv' => (ret tt, srv')
  | inl e => if catches_redis_or_decode e then (ret tt, srv) else (raise e, srv)
  end.

Definition rc_delete (rc : RedisCache) (srv : rserver) (key : string) : res unit * rserver :=
  match r_delete srv (rc_make_key rc key) with
  | inr srv' => (ret tt, srv')
  | inl e => if catches_redis e then (ret tt, srv) else (raise e, srv)
  end.

Definition rc_exists (rc : RedisCache) (srv : rserver) (key : string) (now : Z) : res bool :=
  match r_exists srv (rc_make_key rc key) now with
  | inr n => ret (negb (Z.eqb n 0))
  | inl e => if catches_redis e then ret false else raise e
  end.

(** ** [ScrapeResult]: a dataclass with [data] and [timestamp] required and
    [error] defaulting to [None]; [__post_init__] replaces a [None]
    timestamp by [datetime.now()].  A constructor argument is [None] when
    the caller does not supply it. *)
Record ScrapeResult : Type := MkScrapeResult {
  sr_data : pyval;
  sr_timestamp : option Z;     (* a datetime, or Python's None *)
  sr_error : option string
}.

Definition ScrapeResult_new (now : Z) (data : option pyval)
    (timestamp : option (option Z)) (error : option (option string))
  : res ScrapeResult :=
  match data, timestamp with
  | Some d, Some ts =>
      let ts' := match ts with None => Some now | Some t => Some t end in
      ret (MkScrapeResult d ts' (default None error))
  | _, _ => raise (TypeError "__init__() missing required positional argument")
  end.

(** ** Python builtins used by the Twitter scraper *)

Definition py_truthy (v : pyval) : bool :=
  match v with
  | PyNone => false
  | PyBool b => b
  | PyInt z => negb (Z.eqb z 0)
  | PyStr s => negb (String.eqb s EmptyString)
  | PyList l | PyTuple l => negb (Nat.eqb (length l) 0)
  | PyDict d => negb (Nat.eqb (length d) 0)
  end.

Definition py_len (v : pyval) : res Z :=
  match v with
  | PyStr s => ret (Z.of_nat (String.length s))
  | PyList l | PyTuple l => ret (Z.of_nat (length l))
  | PyDict d => ret (Z.of_nat (length d))
  | _ => raise (TypeError "object has no len()")
  end.

(** [v[k]] for a [str] key [k]: a mapping looks the key up; a list, a
    tuple, a str or a scalar refuses a [str] index. *)
Definition py_getitem_str (v : pyval) (k : string) : res pyval :=
  match v with
  | PyDict d =>
      match find (fun kv => py_eq (fst kv) (PyStr k)) d with
      | Some (_, x) => ret x
      | None => raise KeyError
      end
  | _ => raise (TypeError "indices must be integers")
  end.

(** [repr] of a [str]: single quotes unless the text has a single quote
    and no double quote; backslash, the chosen quote, tab, newline and
    carriage return escaped; other non-printable characters as [\xNN]. *)
Definition has_char (n : nat) (s : string) : bool :=
  existsb (fun c => Nat.eqb (nat_of_ascii c) n) (list_ascii_of_string s).

Definition repr_char (quote : nat) (c : ascii) : string :=
  let n := nat_of_ascii c in
  if Nat.eqb n 92 then String.append bsl bsl
  else if Nat.eqb n quote then String.append bsl (str1 c)
  else if Nat.eqb n 9 then String.append bsl "t"
  else if Nat.eqb n 10 then String.append bsl "n"
  else if Nat.eqb n 13 then String.append bsl "r"
  else if Nat.ltb n 32 || Nat.eqb n 127 || (Nat.leb 128 n && Nat.leb n 160)
          || Nat.eqb n 173
  then String.append bsl (String.append "x" (hex2 n))
  else str1 c.

Definition repr_str (s : string) : string :=
  let quote := if has_char 39 s && negb (has_char 34 s) then 34%nat else 39%nat in
  concat_str [str1 (chr quote);
              concat_str (map (repr_char quote) (list_ascii_of_string s));
              str1 (chr quote)].

Fixpoint py_repr (v : pyval) : string :=
  match v with
  | PyNone => "None"
  | PyBool b => if b then "True" else "False"
  | PyInt z => z_dec z
  | PyStr s => repr_str s
  | PyList l =>
      concat_str ["["; join_str ", " (map py_repr l); "]"]
  | PyTuple l =>
      match l with
      | [x] => concat_str ["("; py_repr x; ",)"]
      | _ => concat_str ["("; join_str ", " (map py_repr l); ")"]
      end
  | PyDict d =>
      concat_str ["{";
                  join_str ", " (map (fun '(k, x) => concat_str [py_repr k; ": "; py_repr x]) d);
                  "}"]
  end.

Definition py_str (v : pyval) : string :=
  match v with PyStr s => s | _ => py_repr v end.

(** ** [TwitterScraper]

    A [tweepy.Client] answers [get_user(username=...)] and
    [get_users_tweets(id=..., max_results=...)] with a [tweepy.Response]
    (its [data]) or some other object, or raises.  The scraper's Redis
    client ([None] when absent) is the mutable state; a raised exception
    keeps the state reached so far. *)
Inductive tweepy_result : Type :=
| TResponse (data : pyval)
| TOther.

Record TweepyClient : Type := MkTweepyClient {
  get_user : string -> res tweepy_result;
  get_users_tweets : string -> Z -> res tweepy_result
}.

Definition SE (A : Type) : Type := option rserver -> res A * option rserver.
Definition se_ret {A} (a : A) : SE A := fun st => (ret a, st).
Definition se_bind {A B} (m : SE A) (k : A -> SE B) : SE B :=
  fun st => match m st with
            | (inl e, st') => (inl e, st')
            | (inr a, st') => k a st'
            end.
Definition se_lift {A} (r : res A) : SE A := fun st => (r, st).
Notation "'let!' x := m 'in' k" := (se_bind m (fun x => k))
  (at level 200, x name, m at level 100, right associativity).

(** [self.redis.get(key)] and [self.redis.setex(key, ttl, value)]; only
    reached under [if self.redis]. *)
Definition se_redis_get (key : string) (now : Z) : SE (option string) :=
  fun st => match st with
            | Some srv => (r_get srv key now, st)
            | None => (ret None, st)
            end.

Definition se_redis_setex (key : string) (ttl : Z) (value : string) (now : Z) : SE unit :=
  fun st => match st with
            | Some srv => match r_setex srv key ttl value now with
                          | inr srv' => (ret tt, Some srv')
                          | inl e => (inl e, st)
                          end
            | None => (ret tt, st)
            end.

Definition has_redis : SE bool :=
  fun st => (ret (match st with Some _ => true | None => false end), st).

Definition assert_response (r : tweepy_result) : res pyval :=
  match r with TResponse d => ret d | TOther => raise AssertionError end.

(** The part of [_get_user_id_cached] after a cache miss. *)
Definition user_id_from_api (client : TweepyClient) (username cache_key : string)
    (now : Z) : SE string :=
  let! user_response := se_lift (get_user client username) in
  let! data := se_lift (assert_response user_response) in
  let! idv := se_lift (py_getitem_str data "id") in
  let user_id := py_str idv in
  let! r := has_redis in
  let! _u := (if r then se_redis_setex cache_key 2592000 user_id now else se_ret tt) in
  se_ret user_id.

Definition get_user_id_cached (client : TweepyClient) (username : string) (now : Z)
  : SE string :=
  let cache_key := String.append "twitter_user_id:" username in
  let! r := has_redis in
  let! cached := (if r then se_redis_get cache_key now else se_ret None) in
  match cached with
  | Some c => if negb (String.eqb c EmptyString) then se_ret c    (* if cached: *)
              else user_id_from_api client username cache_key now
  | None => user_id_from_api client username cache_key now
  end.

Definition get_tweets_cached (client : TweepyClient) (user_id : string) (now : Z)
  : SE pyval :=
  let cache_key := String.append "twitter_tweets:" user_id in
  let! tweets_response := se_lift (get_users_tweets client user_id 10) in
  let! data := se_lift (assert_response tweets_response) in
  if negb (py_truthy data) then se_ret (PyList [])
  else
    let! r := has_redis in
    let! _u := (if r then
                  let! tweet_count := se_lift (py_len data) in
                  se_redis_setex cache_key 900 (z_dec tweet_count) now
                else se_ret tt) in
    se_ret data.

Definition fetch_tweets (client : TweepyClient) (now : Z) : SE pyval :=
  let username := "elonmusk" in
  let! user_id := get_user_id_cached client username now in
  get_tweets_cached client user_id now.

(** [scrape()]: every clock reading of one scrape is [now]. *)
Definition scrape (client : TweepyClient) (now : Z) : SE ScrapeResult :=
  let! tweets := fetch_tweets client now in
  se_lift (ScrapeResult_new now (Some tweets) (Some (Some now)) None).

(** ** [Scraper]: the base class's cache helpers

    [self.cache] is an optional [Cache]; the helpers are modelled over a
    [MemoryCache] ([None] when no cache is configured). *)
Definition scraper_get_cache_key (class_name : string) (args : list pyval)
    (kwargs : list (string * pyval)) : res string :=
  let? k := create_cache_key args kwargs in
  ret (concat_str [class_name; ":"; k]).

Definition scraper_cache_get (cache : option mcache) (key : string) (now : Z)
  : pyval * option mcache :=
  match cache with
  | None => (PyNone, None)
  | Some c => let '(v, c') := mc_get c key now in (v, Some c')
  end.

Definition scraper_cache_set (cache : option mcache) (key : string) (value : pyval)
    (ttl : option Z) (now : Z) : option mcache :=
  match cache with
  | None => None
  | Some c => Some (mc_set c key value ttl now)
  end.

(** ** [load_dotenv]: the loop over the lines of the file

    The file is its decoded text, a list of characters; text mode
    translates ["\r\n"] and ["\r"] to ["\n"], and iteration yields the
    lines with their newline.  [os.environ] is a map, returned with the
    exception that ended the load, if any; setting a variable fails as
    CPython's [putenv] does: a NUL in the name or value raises
    [ValueError], an empty name makes [setenv] fail with [EINVAL]. *)
Inductive env_error : Type :=
| EnvValueError (msg : string)
| EnvOSError (errno : Z).

Definition ch_nl : ascii := chr 10.
Definition ch_cr : ascii := chr 13.

Fixpoint translate_newlines (l : list ascii) : list ascii :=
  match l with
  | [] => []
  | c :: l' =>
      if Ascii.eqb c ch_cr then
        match l' with
        | c2 :: l'' => if Ascii.eqb c2 ch_nl then ch_nl :: translate_newlines l''
                       else ch_nl :: translate_newlines l'
        | [] => [ch_nl]
        end
      else c :: translate_newlines l'
  end.

(** Lines, each keeping its ["\n"]; the last one may have none. *)
Fixpoint split_lines_acc (cur : list ascii) (l : list ascii) : list (list ascii) :=
  match l with
  | [] => match cur with [] => [] | _ => [rev cur] end
  | c :: l' =>
      if Ascii.eqb c ch_nl then rev (c :: cur) :: split_lines_acc [] l'
      else split_lines_acc (c :: cur) l'
  end.

Definition split_lines (l : list ascii) : list (list ascii) := split_lines_acc [] l.

(** [str.isspace] on the code points 0..255. *)
Definition is_py_space (c : ascii) : bool :=
  let n := nat_of_ascii c in
  (Nat.leb 9 n && Nat.leb n 13) || (Nat.leb 28 n && Nat.leb n 32)
  || Nat.eqb n 133 || Nat.eqb n 160.

Fixpoint lstrip (l : list ascii) : list ascii :=
  match l with
  | c :: l' => if is_py_space c then lstrip l' else l
  | [] => []
  end.

Definition py_strip (l : list ascii) : list ascii := rev (lstrip (rev (lstrip l))).

Definition ch_eq (c d : ascii) : bool := Ascii.eqb c d.

(** [line.split('=', 1)] on a line holding ['=']. *)
Fixpoint split_eq (l : list ascii) : list ascii * list ascii :=
  match l with
  | [] => ([], [])
  | c :: l' => if ch_eq c "="%char then ([], l')
               else let '(k, v) := split_eq l' in (c :: k, v)
  end.

Definition starts_with (c : ascii) (l : list ascii) : bool :=
  match l with d :: _ => ch_eq d c | [] => false end.

Definition ends_with (c : ascii) (l : list ascii) : bool :=
  match rev l with d :: _ => ch_eq d c | [] => false end.

(** [value[1:-1]] *)
Definition drop_ends (l : list ascii) : list ascii := removelast (tl l).

Definition unquote (value : list ascii) : list ascii :=
  if Nat.leb 2 (length value) then
    if (starts_with (chr 34) value && ends_with (chr 34) value)
       || (starts_with (chr 39) value && ends_with (chr 39) value)
    then drop_ends value else value
  else value.

Definition has_nul (l : list ascii) : bool := existsb (fun c => ch_eq c (chr 0)) l.

(** [os.environ[key] = value]: the raised exception, if any, and the
    environment afterwards. *)
Definition environ_set (env : gmap string string) (key value : list ascii)
  : option env_error * gmap string string :=
  if has_nul key || has_nul value then (Some (EnvValueError "embedded null byte"), env)
  else match key with
       | [] => (Some (EnvOSError 22), env)
       | _ => (None, <[string_of_list_ascii key := string_of_list_ascii value]> env)
       end.

(** The body of the loop for one line. *)
Definition dotenv_line (override : bool) (env : gmap string string) (raw : list ascii)
  : option env_error * gmap string string :=
  let line := py_strip raw in
  if (match line with [] => true | _ => false end) || starts_with "#"%char line then (None, env)
  else if negb (existsb (fun c => ch_eq c "="%char) line) then (None, env)
  else
    let '(k, v) := split_eq line in
    let key := py_strip k in
    let value := unquote (py_strip v) in
    match env !! string_of_list_ascii key with
    | Some _ => if override then environ_set env key value else (None, env)
    | None => environ_set env key value
    end.

(** An exception ends the loop; the variables set before it stay set. *)
Fixpoint dotenv_lines (override : bool) (env : gmap string string) (lines : list (list ascii))
  : option env_error * gmap string string :=
  match lines with
  | [] => (None, env)
  | line :: rest =>
      match dotenv_line override env line with
      | (Some e, env') => (Some e, env')
      | (None, env') => dotenv_lines override env' rest
      end
  end.

(** [load_dotenv(env_file, override)] once [_find_env_file] has chosen a
    path: [file] is its text, [None] when the path does not exist. *)
Definition load_dotenv (file : option (list ascii)) (override : bool)
    (env : gmap string string) : option env_error * gmap string string :=
  match file with
  | None => (None, env)
  | Some text => dotenv_lines override env (split_lines (translate_newlines text))
  end.

(** ** Auxiliary definitions for the proofs and the sample inputs *)

(** Insertion sort of keyword items by name, as [sort_by] performs it
    on [(str, value)] items whose names are distinct. *)
Fixpoint ins_kw (x : string * pyval) (s : list (string * pyval)) : list (string * pyval) :=
  match s with
  | [] => [x]
  | y :: s' => if String.ltb (fst x) (fst y) then x :: y :: s' else y :: ins_kw x s'
  end.

Fixpoint sort_kw (l : list (string * pyval)) : list (string * pyval) :=
  match l with [] => [] | x :: l' => ins_kw x (sort_kw l') end.

Definition kw_lt (x y : string * pyval) : Prop := String.ltb (fst x) (fst y) = true.

Definition const_func (v : pyval) : pyfunc := fun _ _ _ => ret v.

Definition methods_from (raw : pyobject) (m : gmap string pycallable) : Prop :=
  forall name f, m !! name = Some f -> py_getattr raw name = ret (AttrCallable f).

Definition demo_client : pyobject :=
  MkObject "Client"
    [("_secret", AttrCallable (fun _ _ => ret (PyInt 0)));
     ("get_user", AttrCallable (fun args _ => ret (PyList args)));
     ("version", AttrValue (PyStr "2"))].

(** A dict with a tuple key: [json.dumps] refuses it with [TypeError]. *)
Definition tuple_keyed_dict : pyval := PyDict [(PyTuple [PyInt 1; PyInt 2], PyInt 3)].

(** No user id is cached: there is no Redis client, or the reachable
    server has no live value under the key. *)
Definition no_cached_user_id (st : option rserver) (now : Z) : Prop :=
  match st with
  | None => True
  | Some srv => r_get srv "twitter_user_id:elonmusk" now = ret None
  end.

Definition boom_client : TweepyClient :=
  MkTweepyClient (fun _ => raise (ClientError "boom")) (fun _ _ => ret (TResponse (PyList []))).

(** Every key of [_expiry] has an entry in [_cache]. *)
Definition expiry_in_cache (s : mcache) : Prop :=
  forall k e, mc_expiry s !! k = Some e -> is_Some (mc_cache s !! k).

(** A character of ["0123456789abcdef"]. *)
Definition is_lower_hex (c : ascii) : bool :=
  let n := nat_of_ascii c in
  (Nat.leb 48 n && Nat.leb n 57) || (Nat.leb 97 n && Nat.leb n 102).

Definition raising_func (e : exn) : pyfunc := fun _ _ _ => raise e.

(** The body of the loop of [_introspect_methods], as a step function. *)
Definition introspect_step (raw : pyobject) (acc : res (gmap string pycallable)) (name : string)
  : res (gmap string pycallable) :=
  let? methods := acc in
  if starts_with_underscore name then ret methods
  else let? a := py_getattr raw name in
       match a with
       | AttrCallable f => ret (<[name := f]> methods)
       | AttrValue _ => ret methods
       end.

(** A character that can appear inside a line of a [.env] file and in a
    value of [os.environ]: not a newline, a carriage return or NUL. *)
Definition line_char (c : ascii) : bool :=
  negb (ch_eq c ch_nl || ch_eq c ch_cr || ch_eq c (chr 0)).

(** * Properties *)

(** ** The hash and key derivation agree with CPython on sample inputs *)

Example md5_empty : md5_hexdigest "" = "d41d8cd98f00b204e9800998ecf8427e".
Proof. vm_compute. reflexivity. Qed.
Example md5_abc : md5_hexdigest "abc" = "900150983cd24fb0d6963f7d28e17f72".
Proof. vm_compute. reflexivity. Qed.
Example key_true :
  create_cache_key [PyBool true] [] = ret "26e0a9fb3e573793e104582e793df944".
Proof. vm_compute. reflexivity. Qed.
Example key_one :
  create_cache_key [PyInt 1] [] = ret "a4b585d8b23790e3c5954245c2ad3eaa".
Proof. vm_compute. reflexivity. Qed.

(** ** [MemoryCache] *)

Lemma mc_run_cons (s : mcache) (o : mc_op) (ops : list mc_op) :
  mc_run s (o :: ops) = mc_run (mc_step s o) ops.
Proof. reflexivity. Qed.

(** A step that does not write [key] either leaves both dicts unchanged at
    [key], or is a [get] of [key] that found it absent or expired and
    removed it. *)
Lemma mc_step_at_key (s : mcache) (key : string) (o : mc_op) :
  writes_key key o = false ->
  (mc_cache (mc_step s o) !! key = mc_cache s !! key /\
   mc_expiry (mc_step s o) !! key = mc_expiry s !! key) \/
  (exists now, (negb (in_cache s key) || is_expired s key now) = true /\
   mc_cache (mc_step s o) !! key = None /\ mc_expiry (mc_step s o) !! key = None).
Proof.
  destruct o as [k now | k v ttl now | k | k now]; simpl; intros Hw.
  - unfold mc_get.
    destruct (negb (in_cache s k) || is_expired s k now) eqn:Hc; simpl.
    + destruct (decide (k = key)) as [-> | Hne].
      * right. exists now. split; [exact Hc |].
        split; apply lookup_delete_eq.
      * left. split; apply lookup_delete_ne; exact Hne.
    + left. destruct (mc_cache s !! k); simpl; auto.
  - apply String.eqb_neq in Hw. unfold mc_set.
    destruct (ttl_truthy ttl); simpl; left; split;
      rewrite ?lookup_insert_ne, ?lookup_delete_ne; auto.
  - apply String.eqb_neq in Hw. unfold mc_delete; simpl.
    left. split; apply lookup_delete_ne; exact Hw.
  - left. auto.
Qed.

(** The reads of [key] depend only on the two dicts at [key]. *)
Lemma mc_get_at_key (s : mcache) (key : string) (now : Z) (v : pyval) :
  mc_cache s !! key = Some v -> mc_expiry s !! key = None ->
  mc_get s key now = (v, s) /\ mc_exists s key now = true.
Proof.
  intros Hc He. unfold mc_get, mc_exists, in_cache, is_expired.
  rewrite Hc, He. simpl. auto.
Qed.

Lemma mc_get_expired (s : mcache) (key : string) (now e : Z) :
  mc_expiry s !! key = Some e -> e < now ->
  fst (mc_get s key now) = PyNone /\ mc_exists s key now = false.
Proof.
  intros He Hlt. unfold mc_get, mc_exists, is_expired. rewrite He.
  assert (Z.ltb e now = true) as -> by (apply Z.ltb_lt; exact Hlt).
  rewrite orb_true_r, andb_false_r. auto.
Qed.

Lemma mc_get_absent (s : mcache) (key : string) (now : Z) :
  mc_cache s !! key = None ->
  fst (mc_get s key now) = PyNone /\ mc_exists s key now = false.
Proof.
  intros Hc. unfold mc_get, mc_exists, in_cache. rewrite Hc. simpl. auto.
Qed.

(** An entry with no expiry survives every sequence of operations that
    does not write its key. *)
Lemma no_expiry_persists (s : mcache) (key : string) (v : pyval) (ops : list mc_op) :
  mc_cache s !! key = Some v -> mc_expiry s !! key = None ->
  forallb (fun o => negb (writes_key key o)) ops = true ->
  mc_cache (mc_run s ops) !! key = Some v /\ mc_expiry (mc_run s ops) !! key = None.
Proof.
  revert s. induction ops as [| o ops IH]; intros s Hc He Hops; [auto |].
  simpl in Hops. apply andb_true_iff in Hops as [Ho Hops].
  apply negb_true_iff in Ho. rewrite mc_run_cons. apply IH; [| | exact Hops].
  - destruct (mc_step_at_key s key o Ho) as [[-> _] | [now [Hx _]]]; [exact Hc |].
    unfold in_cache, is_expired in Hx. rewrite Hc, He in Hx. discriminate.
  - destruct (mc_step_at_key s key o Ho) as [[_ ->] | [now [Hx _]]]; [exact He |].
    unfold in_cache, is_expired in Hx. rewrite Hc, He in Hx. discriminate.
Qed.

(** An entry with expiry [e] stays absent or keeps expiry [e] under every
    sequence of operations that does not write its key. *)
Lemma expiry_persists (s : mcache) (key : string) (e : Z) (ops : list mc_op) :
  (mc_cache s !! key = None \/ mc_expiry s !! key = Some e) ->
  forallb (fun o => negb (writes_key key o)) ops = true ->
  mc_cache (mc_run s ops) !! key = None \/ mc_expiry (mc_run s ops) !! key = Some e.
Proof.
  revert s. induction ops as [| o ops IH]; intros s Hinv Hops; [auto |].
  simpl in Hops. apply andb_true_iff in Hops as [Ho Hops].
  apply negb_true_iff in Ho. rewrite mc_run_cons. apply IH; [| exact Hops].
  destruct (mc_step_at_key s key o Ho) as [[-> ->] | [now [_ [-> _]]]]; auto.
Qed.

Lemma mc_set_lookups (s : mcache) (key : string) (v : pyval) (ttl : option Z) (now : Z) :
  mc_cache (mc_set s key v ttl now) !! key = Some v /\
  mc_expiry (mc_set s key v ttl now) !! key =
    (if ttl_truthy ttl then Some (now + seconds (default 0 ttl)) else None).
Proof.
  unfold mc_set. destruct (ttl_truthy ttl); simpl;
    rewrite ?lookup_insert_eq, ?lookup_delete_eq; auto.
Qed.

(** Reading a key right after a [set] with a non-zero TTL [t]. *)
Lemma mc_set_ttl_read (s : mcache) (key : string) (v : pyval) (t tset now : Z) :
  t <> 0 ->
  let s1 := mc_set s key v (Some t) tset in
  (now <= tset + seconds t -> mc_get s1 key now = (v, s1) /\ mc_exists s1 key now = true) /\
  (tset + seconds t < now -> fst (mc_get s1 key now) = PyNone /\ mc_exists s1 key now = false).
Proof.
  intros Ht s1.
  destruct (mc_set_lookups s key v (Some t) tset) as [Hc He].
  assert (ttl_truthy (Some t) = true) as Htr
    by (simpl; apply negb_true_iff, Z.eqb_neq; exact Ht).
  rewrite Htr in He. simpl in He. fold s1 in Hc, He.
  split; intros Hnow.
  - unfold mc_get, mc_exists, in_cache, is_expired. rewrite Hc, He.
    assert (Z.ltb (tset + seconds t) now = false) as -> by (apply Z.ltb_ge; lia).
    simpl. auto.
  - apply (mc_get_expired s1 key now (tset + seconds t)); assumption.
Qed.

(** C2 (amended): at every instant, [exists(k)] is true exactly when
    [get(k)] finds an unexpired stored entry, and then [get(k)] returns
    the stored value (and changes nothing); when [exists(k)] is false,
    [get(k)] returns [None]. *)
Theorem mc_exists_iff_get_finds (s : mcache) (key : string) (now : Z) :
  (mc_exists s key now = true <->
   exists v, mc_cache s !! key = Some v /\ is_expired s key now = false) /\
  (forall v, mc_cache s !! key = Some v -> mc_exists s key now = true ->
             mc_get s key now = (v, s)) /\
  (mc_exists s key now = false -> fst (mc_get s key now) = PyNone).
Proof.
  unfold mc_exists, mc_get, in_cache.
  destruct (mc_cache s !! key) as [w |] eqn:Hc; simpl.
  - destruct (is_expired s key now) eqn:Hx; simpl.
    + split; [split; [discriminate | intros [v [_ Hv]]; discriminate] |].
      split; [intros v _ H; discriminate | auto].
    + split; [split; [intros _; exists w; auto | auto] |].
      split; [intros v Hv _; injection Hv as ->; reflexivity | discriminate].
  - split; [split; [discriminate | intros [v [Hv _]]; discriminate] |].
    split; [intros v Hv; discriminate | auto].
Qed.

(** C2 (counterexample): after [set("k", None)], [exists("k")] is true
    while [get("k")] returns [None], the value that means absent. *)
Lemma mc_exists_get_disagree_on_none :
  let s := mc_set MemoryCache_init "k" PyNone None 0 in
  mc_exists s "k" 0 = true /\ fst (mc_get s "k" 0) = PyNone.
Proof. vm_compute. split; reflexivity. Qed.

(** C5: after [set(k, v, t)] with [t > 0], [get(k)] returns [v] and
    [exists(k)] is true at the instant of the set and up to [t] seconds
    later; at every instant more than [t] seconds after the set, whatever
    operations not writing [k] ran in between, [get(k)] returns [None] and
    [exists(k)] is false.  Expiry is decided by the reads themselves. *)
Theorem mc_set_ttl_expires (s : mcache) (key : string) (v : pyval) (t tset : Z) :
  0 < t ->
  let s1 := mc_set s key v (Some t) tset in
  (forall now, now <= tset + seconds t ->
     mc_get s1 key now = (v, s1) /\ mc_exists s1 key now = true) /\
  (forall ops now,
     forallb (fun o => negb (writes_key key o)) ops = true ->
     tset + seconds t < now ->
     fst (mc_get (mc_run s1 ops) key now) = PyNone /\
     mc_exists (mc_run s1 ops) key now = false).
Proof.
  intros Ht s1. split.
  - intros now Hnow. apply (mc_set_ttl_read s key v t tset now); [lia | exact Hnow].
  - intros ops now Hops Hnow.
    destruct (mc_set_lookups s key v (Some t) tset) as [_ He].
    assert (ttl_truthy (Some t) = true) as Htr
      by (simpl; apply negb_true_iff, Z.eqb_neq; lia).
    rewrite Htr in He. simpl in He. fold s1 in He.
    destruct (expiry_persists s1 key (tset + seconds t) ops (or_intror He) Hops)
      as [Hc | He'].
    + apply mc_get_absent; exact Hc.
    + apply (mc_get_expired _ key now (tset + seconds t)); assumption.
Qed.

(** C6: [set(k, v)] without a TTL stores [v] with no expiry, also over an
    earlier TTL on [k]: after any operations not writing [k], [get(k)]
    returns [v] at every instant.  A later [set(k, v', t)] with a TTL
    applies that TTL: [get(k)] returns [v'] up to [t] seconds after it and
    [None] afterwards. *)
Theorem mc_set_no_ttl_persists (s : mcache) (key : string) (v : pyval) (tset : Z)
    (ops : list mc_op) :
  forallb (fun o => negb (writes_key key o)) ops = true ->
  let s' := mc_run (mc_set s key v None tset) ops in
  (forall now, mc_get s' key now = (v, s') /\ mc_exists s' key now = true) /\
  (forall v' t t1 now, t <> 0 ->
     fst (mc_get (mc_set s' key v' (Some t) t1) key now) =
       (if Z.leb now (t1 + seconds t) then v' else PyNone)).
Proof.
  intros Hops s'.
  destruct (mc_set_lookups s key v None tset) as [Hc He]. simpl in He.
  destruct (no_expiry_persists _ key v ops Hc He Hops) as [Hc' He'].
  fold s' in Hc', He'. split.
  - intros now. apply mc_get_at_key; assumption.
  - intros v' t t1 now Ht.
    destruct (mc_set_ttl_read s' key v' t t1 now Ht) as [Hin Hout].
    destruct (Z.leb now (t1 + seconds t)) eqn:Hle.
    + apply Z.leb_le in Hle. rewrite (proj1 (Hin Hle)). reflexivity.
    + apply Z.leb_gt in Hle. apply (Hout Hle).
Qed.

(** C10: [set(k, v, 0)] is the same operation as [set(k, v)] without TTL:
    the entry has no expiry (any earlier expiry of [k] is cleared), and
    after any operations not writing [k], [get(k)] returns [v]. *)
Theorem mc_set_zero_ttl_no_expiry (s : mcache) (key : string) (v : pyval) (tset : Z)
    (ops : list mc_op) :
  forallb (fun o => negb (writes_key key o)) ops = true ->
  mc_set s key v (Some 0) tset = mc_set s key v None tset /\
  mc_expiry (mc_set s key v (Some 0) tset) !! key = None /\
  (forall now, let s' := mc_run (mc_set s key v (Some 0) tset) ops in
               mc_get s' key now = (v, s') /\ mc_exists s' key now = true).
Proof.
  intros Hops.
  assert (Heq : mc_set s key v (Some 0) tset = mc_set s key v None tset)
    by reflexivity.
  destruct (mc_set_lookups s key v (Some 0) tset) as [Hc He]. simpl in He.
  split; [exact Heq |]. split; [exact He |].
  intros now s'.
  destruct (no_expiry_persists _ key v ops Hc He Hops) as [Hc' He'].
  apply mc_get_at_key; assumption.
Qed.

Lemma mc_exists_iff_get_finds_witness :
  let s := mc_set MemoryCache_init "k" (PyInt 7) (Some 10) 0 in
  mc_exists s "k" 5 = true /\ mc_get s "k" 5 = (PyInt 7, s).
Proof.
  intros s. assert (Hx : mc_exists s "k" 5 = true) by reflexivity.
  split; [exact Hx |].
  apply (proj1 (proj2 (mc_exists_iff_get_finds s "k" 5)) (PyInt 7)); [reflexivity | exact Hx].
Defined.

Lemma mc_set_ttl_expires_witness :
  0 < 2 /\
  fst (mc_get (mc_run (mc_set MemoryCache_init "k" (PyInt 1) (Some 2) 0)
                      [OpGet "k" 1; OpSet "j" PyNone None 1; OpExists "k" 2]) "k" 2000001)
  = PyNone.
Proof.
  split; [lia |].
  apply (proj2 (mc_set_ttl_expires MemoryCache_init "k" (PyInt 1) 2 0 ltac:(lia))
               [OpGet "k" 1; OpSet "j" PyNone None 1; OpExists "k" 2] 2000001);
    [reflexivity | unfold seconds; lia].
Defined.

Lemma mc_set_no_ttl_persists_witness :
  let s0 := mc_set MemoryCache_init "k" (PyInt 1) (Some 5) 0 in
  let ops := [OpGet "k" 100000000; OpDelete "j"] in
  forallb (fun o => negb (writes_key "k" o)) ops = true /\
  fst (mc_get (mc_run (mc_set s0 "k" (PyInt 2) None 1) ops) "k" 999999999) = PyInt 2.
Proof.
  intros s0 ops. assert (H : forallb (fun o => negb (writes_key "k" o)) ops = true)
    by reflexivity.
  split; [exact H |].
  rewrite (proj1 (proj1 (mc_set_no_ttl_persists s0 "k" (PyInt 2) 1 ops H) 999999999)).
  reflexivity.
Defined.

Lemma mc_set_zero_ttl_no_expiry_witness :
  let s0 := mc_set MemoryCache_init "k" (PyInt 1) (Some 5) 0 in
  forallb (fun o => negb (writes_key "k" o)) [OpGet "k" 100000000] = true /\
  mc_exists (mc_run (mc_set s0 "k" (PyInt 2) (Some 0) 1) [OpGet "k" 100000000])
    "k" 999999999 = true.
Proof.
  intros s0. assert (H : forallb (fun o => negb (writes_key "k" o)) [OpGet "k" 100000000] = true)
    by reflexivity.
  split; [exact H |].
  exact (proj2 (proj2 (proj2 (mc_set_zero_ttl_no_expiry s0 "k" (PyInt 2) 1 _ H)) 999999999)).
Defined.

(** ** [create_cache_key]: keyword arguments in any order *)

Lemma string_compare_refl (a : string) : String.compare a a = Eq.
Proof.
  induction a as [| c a IH]; simpl; [reflexivity |].
  unfold Ascii.compare. rewrite N.compare_refl. exact IH.
Qed.

Lemma string_ltb_spec (a b : string) :
  String.ltb a b = true <-> String.le a b /\ a <> b.
Proof.
  unfold String.ltb, String.le, String.leb. split.
  - destruct (String.compare a b) eqn:H; try discriminate. intros _.
    split; [exact I |]. intros ->. rewrite string_compare_refl in H. discriminate.
  - intros [Hle Hne]. destruct (String.compare a b) eqn:H; try contradiction.
    + apply String.compare_eq_iff in H. contradiction.
    + reflexivity.
Qed.

Lemma string_ltb_trans (a b c : string) :
  String.ltb a b = true -> String.ltb b c = true -> String.ltb a c = true.
Proof.
  rewrite !string_ltb_spec. intros [Hab Nab] [Hbc Nbc]. split.
  - etrans; eassumption.
  - intros ->. apply Nab. apply (anti_symm String.le); assumption.
Qed.

Lemma string_ltb_asym (a b : string) :
  String.ltb a b = true -> String.ltb b a = false.
Proof.
  unfold String.ltb. rewrite String.compare_antisym.
  destruct (String.compare b a); simpl; congruence.
Qed.

Lemma string_ltb_total (a b : string) :
  a <> b -> String.ltb a b = false -> String.ltb b a = true.
Proof.
  unfold String.ltb. intros Hne. rewrite (String.compare_antisym b a).
  destruct (String.compare a b) eqn:H; simpl; try congruence.
  apply String.compare_eq_iff in H. contradiction.
Qed.

Lemma ins_kw_perm (x : string * pyval) (s : list (string * pyval)) :
  Permutation (ins_kw x s) (x :: s).
Proof.
  induction s as [| y s IH]; simpl; [reflexivity |].
  destruct (String.ltb (fst x) (fst y)); [reflexivity |].
  rewrite IH. apply perm_swap.
Qed.

Lemma sort_kw_perm (l : list (string * pyval)) : Permutation (sort_kw l) l.
Proof.
  induction l as [| x l IH]; simpl; [reflexivity |].
  rewrite ins_kw_perm. apply perm_skip, IH.
Qed.

Lemma ins_kw_sorted (x : string * pyval) (s : list (string * pyval)) :
  StronglySorted kw_lt s -> ~ In (fst x) (map fst s) ->
  StronglySorted kw_lt (ins_kw x s).
Proof.
  induction s as [| y s IH]; intros Hs Hn; simpl.
  - repeat constructor.
  - apply StronglySorted_inv in Hs as [Hs Hy].
    assert (Hxy : fst y <> fst x) by (intros E; apply Hn; left; exact E).
    destruct (String.ltb (fst x) (fst y)) eqn:Hlt.
    + constructor; [constructor; assumption |].
      constructor; [exact Hlt |].
      eapply Forall_impl; [exact Hy |]. intros z Hz. exact (string_ltb_trans _ _ _ Hlt Hz).
    + constructor.
      * apply IH; [exact Hs |]. intros Hin. apply Hn. right. exact Hin.
      * apply (Permutation_Forall (Permutation_sym (ins_kw_perm x s))).
        constructor; [| exact Hy].
        apply string_ltb_total; [intros E; apply Hxy; symmetry; exact E | exact Hlt].
Qed.

Lemma sort_kw_sorted (l : list (string * pyval)) :
  NoDup (map fst l) -> StronglySorted kw_lt (sort_kw l).
Proof.
  induction l as [| x l IH]; simpl; intros Hnd; [constructor |].
  apply NoDup_cons in Hnd as [Hx Hnd]. rewrite list_elem_of_In in Hx.
  apply ins_kw_sorted; [apply IH, Hnd |].
  intros Hin. apply Hx.
  apply (Permutation_in _ (Permutation_map fst (sort_kw_perm l))), Hin.
Qed.

(** Two strictly sorted lists holding the same items are equal. *)
Lemma strictly_sorted_perm_eq (l1 l2 : list (string * pyval)) :
  StronglySorted kw_lt l1 -> StronglySorted kw_lt l2 -> Permutation l1 l2 -> l1 = l2.
Proof.
  revert l2. induction l1 as [| a l1 IH]; intros l2 H1 H2 Hp.
  - symmetry. apply Permutation_nil, Hp.
  - destruct l2 as [| b l2]; [apply Permutation_sym, Permutation_nil in Hp; discriminate |].
    apply StronglySorted_inv in H1 as [H1 Ha]. apply StronglySorted_inv in H2 as [H2 Hb].
    assert (Hab : a = b).
    { assert (Ha2 : In a (b :: l2)) by (apply (Permutation_in _ Hp); left; reflexivity).
      assert (Hb1 : In b (a :: l1))
        by (apply (Permutation_in _ (Permutation_sym Hp)); left; reflexivity).
      destruct Ha2 as [-> | Ha2]; [reflexivity |].
      destruct Hb1 as [-> | Hb1]; [reflexivity |].
      rewrite Forall_forall in Ha, Hb.
      pose proof (Ha b (proj2 (list_elem_of_In _ _) Hb1)) as Rab.
      pose proof (Hb a (proj2 (list_elem_of_In _ _) Ha2)) as Rba.
      unfold kw_lt in Rab, Rba. rewrite (string_ltb_asym _ _ Rab) in Rba. discriminate. }
    subst b. f_equal. apply IH; [exact H1 | exact H2 |].
    apply (Permutation_cons_inv Hp).
Qed.

(** The model's [sorted(kwargs.items())] is [sort_kw] on distinct names. *)
Lemma sort_insert_kw (x : string * pyval) (s : list (string * pyval)) :
  ~ In (fst x) (map fst s) ->
  sort_insert (fun p => p) (PyStr (fst x), snd x) (kwargs_items s) =
  ret (kwargs_items (ins_kw x s)).
Proof.
  destruct x as [kx vx].
  induction s as [| [k v] s IH]; intros Hn; [reflexivity |].
  simpl in IH |- *. unfold item_lt. simpl.
  assert (Hne : kx <> k) by (intros E; apply Hn; left; symmetry; exact E).
  apply String.eqb_neq in Hne. rewrite Hne. simpl.
  destruct (String.ltb kx k); [reflexivity |].
  rewrite IH; [reflexivity |]. intros Hin. apply Hn. right. exact Hin.
Qed.

Lemma py_sorted_kwargs (l : list (string * pyval)) :
  NoDup (map fst l) -> py_sorted (kwargs_items l) = ret (kwargs_items (sort_kw l)).
Proof.
  unfold py_sorted. induction l as [| [k v] l IH]; simpl; intros Hnd; [reflexivity |].
  apply NoDup_cons in Hnd as [Hx Hnd]. rewrite list_elem_of_In in Hx. rewrite (IH Hnd). simpl.
  apply (sort_insert_kw (k, v)). simpl. intros Hin. apply Hx.
  apply (Permutation_in _ (Permutation_map fst (sort_kw_perm l))), Hin.
Qed.

(** C3 (amended): for the same positional arguments and keyword-argument
    dicts with distinct names holding the same items in any order,
    [create_cache_key] gives the same result (the same key, or the same
    exception). *)
Theorem create_cache_key_kwargs_order (args : list pyval)
    (kw1 kw2 : list (string * pyval)) :
  NoDup (map fst kw1) -> Permutation kw1 kw2 ->
  create_cache_key args kw1 = create_cache_key args kw2.
Proof.
  intros Hnd Hp.
  assert (Hnd2 : NoDup (map fst kw2)) by (rewrite <- Hp; exact Hnd).
  unfold create_cache_key.
  rewrite (py_sorted_kwargs kw1 Hnd), (py_sorted_kwargs kw2 Hnd2).
  assert (Hs : sort_kw kw1 = sort_kw kw2).
  { apply strictly_sorted_perm_eq; [apply sort_kw_sorted, Hnd | apply sort_kw_sorted, Hnd2 |].
    rewrite (sort_kw_perm kw1), (sort_kw_perm kw2). exact Hp. }
  rewrite Hs. reflexivity.
Qed.

Lemma create_cache_key_kwargs_order_witness :
  NoDup (map fst [("b", PyInt 7); ("a", PyStr "x")]) /\
  Permutation [("b", PyInt 7); ("a", PyStr "x")] [("a", PyStr "x"); ("b", PyInt 7)] /\
  create_cache_key [PyInt 1] [("b", PyInt 7); ("a", PyStr "x")] =
  create_cache_key [PyInt 1] [("a", PyStr "x"); ("b", PyInt 7)].
Proof.
  assert (Hnd : NoDup (map fst [("b", PyInt 7); ("a", PyStr "x")])) by (apply (bool_decide_unpack _); vm_compute; exact I).
  assert (Hp : Permutation [("b", PyInt 7); ("a", PyStr "x")]
                           [("a", PyStr "x"); ("b", PyInt 7)]) by apply perm_swap.
  split; [exact Hnd |]. split; [exact Hp |].
  apply (create_cache_key_kwargs_order [PyInt 1] _ _ Hnd Hp).
Defined.

(** C3 (counterexample): [(True,) == (1,)] in Python, yet
    [create_cache_key(True)] and [create_cache_key(1)] differ: JSON
    encodes [True] as [true] and [1] as [1]. *)
Lemma create_cache_key_bool_int_differ :
  py_eq (PyTuple [PyBool true]) (PyTuple [PyInt 1]) = true /\
  create_cache_key [PyBool true] [] <> create_cache_key [PyInt 1] [].
Proof.
  split; [reflexivity |].
  rewrite key_true, key_one. intros H. inversion H.
Qed.

(** ** [CachedMethod] *)

Lemma mc_get_hit (s s' : mcache) (key : string) (now : Z) (v : pyval) :
  mc_get s key now = (v, s') -> is_none v = false ->
  s' = s /\ mc_cache s !! key = Some v.
Proof.
  unfold mc_get. destruct (negb (in_cache s key) || is_expired s key now).
  - intros H. injection H as <- _. discriminate.
  - destruct (mc_cache s !! key) as [w |] eqn:Hc.
    + intros H _. injection H as -> ->. auto.
    + intros H. injection H as <- _. discriminate.
Qed.

Lemma mc_get_when_exists (s : mcache) (key : string) (now : Z) (v : pyval) :
  mc_exists s key now = true -> mc_cache s !! key = Some v -> mc_get s key now = (v, s).
Proof.
  unfold mc_exists, mc_get, in_cache. intros Hx Hc. rewrite Hc in Hx |- *.
  simpl in Hx |- *. destruct (is_expired s key now); [discriminate | reflexivity].
Qed.

(** A call that returns a value other than [None] leaves it stored
    under its key, having run the function at most once. *)
Lemma cm_call_first (cm : CachedMethod) (fname : string) (func : pyfunc)
    (args : list pyval) (kwargs : list (string * pyval)) (tg ts : Z)
    (c0 : mcache) (n0 : nat) (key : string) (v : pyval) (c1 : mcache) (n1 : nat) :
  cm_cache_key cm fname args kwargs = inr key ->
  cm_call cm fname func args kwargs tg ts (c0, n0) = (inr v, (c1, n1)) ->
  is_none v = false ->
  mc_cache c1 !! key = Some v /\ (n1 <= S n0)%nat.
Proof.
  intros Hkey. unfold cm_call. rewrite Hkey.
  destruct (mc_get c0 key tg) as [cached c] eqn:Hg.
  destruct (is_none cached) eqn:Hn; simpl.
  - destruct (func n0 args kwargs) as [e | r]; [discriminate |].
    intros H _. injection H as <- <- <-.
    split; [apply mc_set_lookups | lia].
  - intros H _. injection H as <- <- <-.
    destruct (mc_get_hit c0 c key tg cached Hg Hn) as [-> Hc].
    split; [exact Hc | lia].
Qed.

(** A call whose entry exists is answered from the cache. *)
Lemma cm_call_hit (cm : CachedMethod) (fname : string) (func : pyfunc)
    (args : list pyval) (kwargs : list (string * pyval)) (tg ts : Z)
    (c : mcache) (n : nat) (key : string) (v : pyval) :
  cm_cache_key cm fname args kwargs = inr key ->
  mc_exists c key tg = true -> mc_cache c !! key = Some v -> is_none v = false ->
  cm_call cm fname func args kwargs tg ts (c, n) = (inr v, (c, n)).
Proof.
  intros Hkey Hx Hc Hv. unfold cm_call. rewrite Hkey.
  rewrite (mc_get_when_exists c key tg v Hx Hc), Hv. reflexivity.
Qed.

(** C4 (amended): two calls of a memoized function with the same arguments
    on a [MemoryCache], the second one while the cache entry exists
    (warm, unexpired): if the first call returned a value other than
    [None], the second returns the same value, and the function ran at
    most once over both calls. *)
Theorem cm_call_twice_warm (cm : CachedMethod) (fname : string) (func : pyfunc)
    (args : list pyval) (kwargs : list (string * pyval)) (tg1 ts1 tg2 ts2 : Z)
    (c0 : mcache) (n0 : nat) (key : string) (v1 : pyval) :
  cm_cache_key cm fname args kwargs = inr key ->
  fst (cm_call cm fname func args kwargs tg1 ts1 (c0, n0)) = inr v1 ->
  is_none v1 = false ->
  mc_exists (fst (snd (cm_call cm fname func args kwargs tg1 ts1 (c0, n0)))) key tg2 = true ->
  fst (cm_call cm fname func args kwargs tg2 ts2
         (snd (cm_call cm fname func args kwargs tg1 ts1 (c0, n0)))) = inr v1 /\
  (snd (snd (cm_call cm fname func args kwargs tg2 ts2
               (snd (cm_call cm fname func args kwargs tg1 ts1 (c0, n0))))) <= S n0)%nat.
Proof.
  intros Hkey.
  destruct (cm_call cm fname func args kwargs tg1 ts1 (c0, n0)) as [r1 [c1 n1]] eqn:H1.
  cbn [fst snd]. intros Hr Hv1 Hx. subst r1.
  destruct (cm_call_first cm fname func args kwargs tg1 ts1 c0 n0 key v1 c1 n1 Hkey H1 Hv1)
    as [Hc Hn].
  rewrite (cm_call_hit cm fname func args kwargs tg2 ts2 c1 n1 key v1 Hkey Hx Hc Hv1).
  cbn [fst snd]. split; [reflexivity | exact Hn].
Qed.

Lemma cm_call_twice_warm_witness :
  let cm := MkCachedMethod (Some 60) "" in
  let f := const_func (PyInt 5) in
  let st1 := snd (cm_call cm "f" f [PyNone; PyInt 1] [] 0 0 (MemoryCache_init, O)) in
  fst (cm_call cm "f" f [PyNone; PyInt 1] [] 1 1 st1) = inr (PyInt 5) /\
  (snd (snd (cm_call cm "f" f [PyNone; PyInt 1] [] 1 1 st1)) <= 1)%nat.
Proof.
  intros cm f st1.
  destruct (cm_cache_key cm "f" [PyNone; PyInt 1] []) as [e | key] eqn:Hk;
    [vm_compute in Hk; discriminate |].
  apply (cm_call_twice_warm cm "f" f [PyNone; PyInt 1] [] 0 0 1 1 MemoryCache_init O key);
    [exact Hk | vm_compute; reflexivity | reflexivity |].
  vm_compute in Hk. injection Hk as <-. vm_compute. reflexivity.
Defined.

(** C4 (counterexample): a function returning [None] is run again on
    the second call, although its entry is stored and unexpired: [None]
    from the cache reads as a miss. *)
Lemma cm_call_none_recomputed :
  let cm := MkCachedMethod None "" in
  let f := const_func PyNone in
  let st1 := snd (cm_call cm "f" f [PyNone] [] 0 0 (MemoryCache_init, O)) in
  match cm_cache_key cm "f" [PyNone] [] with
  | inr key => mc_exists (fst st1) key 0
  | inl _ => false
  end = true /\
  snd (snd (cm_call cm "f" f [PyNone] [] 0 0 st1)) = 2%nat.
Proof. vm_compute. split; reflexivity. Qed.

(** ** [SourceAdapter] *)

(** Every entry of the discovered table is the object's own callable
    attribute of that name. *)
Lemma introspect_methods_sound (raw : pyobject) (m : gmap string pycallable) :
  introspect_methods raw = inr m -> methods_from raw m.
Proof.
  unfold introspect_methods.
  assert (Hgen : forall names (acc : res (gmap string pycallable)),
            (forall m0, acc = inr m0 -> methods_from raw m0) ->
            forall m, fold_left (fun acc name =>
                         let? methods := acc in
                         if starts_with_underscore name then ret methods
                         else let? a := py_getattr raw name in
                              match a with
                              | AttrCallable f => ret (<[name := f]> methods)
                              | AttrValue _ => ret methods
                              end) names acc = inr m -> methods_from raw m).
  { induction names as [| nm names IH]; intros acc Hacc m1 Hf; simpl in Hf.
    - apply Hacc, Hf.
    - refine (IH _ _ m1 Hf). clear IH Hf.
      intros m0 Hm0. destruct acc as [e | ma]; simpl in Hm0; [discriminate |].
      pose proof (Hacc ma eq_refl) as Hma.
      destruct (starts_with_underscore nm); [injection Hm0 as <-; exact Hma |].
      destruct (py_getattr raw nm) as [e | a] eqn:Hga; simpl in Hm0; [discriminate |].
      destruct a as [g | v]; injection Hm0 as <-; [| exact Hma].
      intros n f Hn. destruct (decide (nm = n)) as [<- | Hne].
      + rewrite lookup_insert_eq in Hn. injection Hn as <-. exact Hga.
      + rewrite lookup_insert_ne in Hn by exact Hne. apply Hma, Hn. }
  apply Hgen. intros m0 H0. injection H0 as <-. intros n f Hn.
  rewrite lookup_empty in Hn. discriminate.
Qed.

(** C7: for an adapter built over an object, calling a name absent from
    the discovered table raises [AttributeError] with a message naming it;
    calling a discovered name returns exactly what calling the object's
    attribute of that name returns. *)
Theorem sa_call_spec (raw : pyobject) (a : SourceAdapter) :
  SourceAdapter_new raw = inr a ->
  (forall name args kwargs, sa_methods a !! name = None ->
     sa_call a name args kwargs =
       raise (AttributeError (concat_str ["Method '"; name; "' not found in source"]))) /\
  (forall name args kwargs, is_Some (sa_methods a !! name) ->
     sa_call a name args kwargs =
       (let? at_ := py_getattr raw name in call_attr at_ args kwargs)).
Proof.
  unfold SourceAdapter_new. destruct (introspect_methods raw) as [e | m] eqn:Hm;
    simpl; intros H; [discriminate |]. injection H as <-.
  pose proof (introspect_methods_sound raw m Hm) as Hs.
  split.
  - intros name args kwargs Hn. unfold sa_call. cbn [sa_methods] in Hn |- *. unfold pycallable in *. rewrite Hn. reflexivity.
  - intros name args kwargs [f Hf]. unfold sa_call. cbn [sa_methods] in Hf |- *. unfold pycallable in *. rewrite Hf, (Hs name f Hf).
    reflexivity.
Qed.

Lemma sa_call_spec_witness :
  match SourceAdapter_new demo_client with
  | inr a =>
      sa_methods a !! "missing_op" = None /\
      sa_call a "missing_op" [] [] =
        raise (AttributeError (concat_str ["Method '"; "missing_op"; "' not found in source"])) /\
      sa_call a "get_user" [PyInt 3] [] = ret (PyList [PyInt 3])
  | inl _ => False
  end.
Proof.
  destruct (SourceAdapter_new demo_client) as [e | a] eqn:H; [vm_compute in H; discriminate |].
  destruct (sa_call_spec demo_client a H) as [Hmiss Hfound].
  assert (Hn : sa_methods a !! "missing_op" = None)
    by (vm_compute in H; injection H as <-; reflexivity).
  split; [exact Hn |]. split; [apply Hmiss, Hn |].
  rewrite Hfound; [reflexivity |].
  vm_compute in H. injection H as <-. eexists. reflexivity.
Defined.

(** ** [RedisCache.set] *)

(** C8 (code bug): [RedisCache.set] lets the [TypeError] of [json.dumps]
    escape: its handler catches [redis.RedisError] and
    [json.JSONDecodeError], and serialization raises neither.  This holds
    for every prefix, server state (reachable or not), TTL and instant. *)
Theorem rc_set_serialization_error_escapes (rc : RedisCache) (srv : rserver)
    (ttl : option Z) (now : Z) :
  rc_set rc srv "k" tuple_keyed_dict ttl now =
    (raise (TypeError "keys must be str, int, float, bool or None"), srv).
Proof. reflexivity. Qed.

(** ** [ScrapeResult] *)

(** C9 (code bug): [timestamp] has no default, so constructing a
    [ScrapeResult] without it raises [TypeError]; only an explicit [None]
    is replaced by the construction instant in [__post_init__]. *)
Theorem ScrapeResult_timestamp_required (now : Z) (data : pyval)
    (error : option (option string)) :
  ScrapeResult_new now (Some data) None error =
    raise (TypeError "__init__() missing required positional argument") /\
  (forall r, ScrapeResult_new now (Some data) (Some None) error = inr r ->
             sr_timestamp r = Some now).
Proof.
  split; [reflexivity |].
  intros r H. simpl in H. injection H as <-. reflexivity.
Qed.

Lemma ScrapeResult_timestamp_required_witness :
  sr_timestamp (MkScrapeResult (PyList []) (Some 7) None) = Some 7 /\
  ScrapeResult_new 7 (Some (PyList [])) (Some None) None =
    inr (MkScrapeResult (PyList []) (Some 7) None).
Proof.
  split; [| reflexivity].
  apply (proj2 (ScrapeResult_timestamp_required 7 (PyList []) None)). reflexivity.
Defined.

(** ** [TwitterScraper.scrape] *)

(** C1 (amended): [scrape()] handles no fault.  When [get_user] is called
    (no user id cached) and raises, [scrape()] raises the same exception;
    and every [ScrapeResult] that [scrape()] returns has [error] [None]. *)
Theorem scrape_propagates_faults :
  (forall client st now e,
     get_user client "elonmusk" = inl e -> no_cached_user_id st now ->
     fst (scrape client now st) = inl e) /\
  (forall client st now r st',
     scrape client now st = (inr r, st') -> sr_error r = None).
Proof.
  split.
  - intros client st now e He Hnc.
    unfold scrape, fetch_tweets, get_user_id_cached, user_id_from_api, se_bind,
      se_lift, has_redis, se_ret.
    replace (String.append "twitter_user_id:" "elonmusk")
      with "twitter_user_id:elonmusk" by reflexivity.
    destruct st as [srv |]; simpl in Hnc |- *.
    + rewrite Hnc. simpl. rewrite He. reflexivity.
    + rewrite He. reflexivity.
  - intros client st now r st' H.
    unfold scrape, se_bind, se_lift in H.
    destruct (fetch_tweets client now st) as [[e | tweets] st1]; [discriminate |].
    simpl in H. injection H as <- _. reflexivity.
Qed.

Lemma scrape_propagates_faults_witness :
  no_cached_user_id (Some (MkRServer true ∅)) 0 /\
  fst (scrape boom_client 0 (Some (MkRServer true ∅))) = inl (ClientError "boom").
Proof.
  assert (Hnc : no_cached_user_id (Some (MkRServer true ∅)) 0) by reflexivity.
  split; [exact Hnc |].
  exact (proj1 scrape_propagates_faults boom_client _ 0 (ClientError "boom") eq_refl Hnc).
Defined.

(** C1 (counterexample): with no Redis client and a [get_user] that
    raises, [scrape()] raises instead of returning a [ScrapeResult]. *)
Lemma scrape_get_user_fault_raises :
  fst (scrape boom_client 0 None) = inl (ClientError "boom").
Proof. reflexivity. Qed.

(** * Further properties of the code *)

(** ** [MemoryCache] *)

Lemma mc_reads_at_key (s1 s2 : mcache) (k : string) (t : Z) :
  mc_cache s1 !! k = mc_cache s2 !! k -> mc_expiry s1 !! k = mc_expiry s2 !! k ->
  fst (mc_get s1 k t) = fst (mc_get s2 k t) /\ mc_exists s1 k t = mc_exists s2 k t.
Proof.
  intros Hc He. unfold mc_get, mc_exists, in_cache, is_expired. rewrite Hc, He.
  destruct (mc_cache s2 !! k); destruct (mc_expiry s2 !! k); simpl;
    try destruct (Z.ltb _ t); simpl; auto.
Qed.

Lemma mc_get_state (s : mcache) (key : string) (now : Z) :
  snd (mc_get s key now) =
    if negb (in_cache s key) || is_expired s key now
    then MCache (delete key (mc_cache s)) (delete key (mc_expiry s)) else s.
Proof.
  unfold mc_get. destruct (negb (in_cache s key) || is_expired s key now); [reflexivity |].
  destruct (mc_cache s !! key); reflexivity.
Qed.

(** X1: after [delete(key)], [get(key)] returns [None] and [exists(key)]
    is false at every instant; what every other key reads is unchanged. *)
Theorem mc_delete_forgets (s : mcache) (key k : string) (now : Z) :
  k <> key ->
  (fst (mc_get (mc_delete s key) key now) = PyNone /\
   mc_exists (mc_delete s key) key now = false) /\
  (fst (mc_get (mc_delete s key) k now) = fst (mc_get s k now) /\
   mc_exists (mc_delete s key) k now = mc_exists s k now).
Proof.
  intros Hne. split.
  - apply mc_get_absent. unfold mc_delete; simpl. apply lookup_delete_eq.
  - apply mc_reads_at_key; unfold mc_delete; simpl; apply lookup_delete_ne; congruence.
Qed.

Lemma mc_delete_forgets_witness :
  let s := mc_set MemoryCache_init "b" (PyInt 1) None 0 in
  ("b" <> "a") /\
  (fst (mc_get (mc_delete s "a") "a" 0) = PyNone /\ mc_exists (mc_delete s "a") "a" 0 = false) /\
  (fst (mc_get (mc_delete s "a") "b" 0) = fst (mc_get s "b" 0) /\
   mc_exists (mc_delete s "a") "b" 0 = mc_exists s "b" 0).
Proof.
  intros s. assert (Hne : "b" <> "a") by discriminate.
  split; [exact Hne |]. apply (mc_delete_forgets s "a" "b" 0 Hne).
Defined.

(** X2: a [get] has no effect that a later read can observe: the entry it
    evicts is absent or already expired, so every [get] and [exists] at
    the same or a later instant answers as it would have without it. *)
Theorem mc_get_unobservable (s : mcache) (key : string) (now : Z) (k : string) (t : Z) :
  now <= t ->
  fst (mc_get (snd (mc_get s key now)) k t) = fst (mc_get s k t) /\
  mc_exists (snd (mc_get s key now)) k t = mc_exists s k t.
Proof.
  intros Ht. rewrite mc_get_state.
  destruct (negb (in_cache s key) || is_expired s key now) eqn:Hb; [| auto].
  destruct (decide (k = key)) as [-> | Hne].
  - destruct (mc_get_absent (MCache (delete key (mc_cache s)) (delete key (mc_expiry s))) key t
                ltac:(simpl; apply lookup_delete_eq)) as [-> ->].
    apply orb_true_iff in Hb as [Hb | Hb].
    + unfold in_cache in Hb. destruct (mc_cache s !! key) eqn:Hc; [discriminate |].
      destruct (mc_get_absent s key t Hc) as [H1 H2]. auto.
    + unfold is_expired in Hb. destruct (mc_expiry s !! key) as [e |] eqn:He; [| discriminate].
      apply Z.ltb_lt in Hb.
      destruct (mc_get_expired s key t e He) as [H1 H2]; [lia |]. auto.
  - apply mc_reads_at_key; simpl; apply lookup_delete_ne; congruence.
Qed.

Lemma mc_get_unobservable_witness :
  let s := mc_set MemoryCache_init "a" (PyInt 1) (Some 1) 0 in
  (2000000 <= 3000000) /\
  fst (mc_get (snd (mc_get s "a" 2000000)) "a" 3000000) = fst (mc_get s "a" 3000000) /\
  mc_exists (snd (mc_get s "a" 2000000)) "a" 3000000 = mc_exists s "a" 3000000.
Proof.
  intros s. assert (Ht : 2000000 <= 3000000) by lia.
  split; [exact Ht |]. apply (mc_get_unobservable s "a" 2000000 "a" 3000000 Ht).
Defined.

Lemma mc_step_expiry_in_cache (s : mcache) (o : mc_op) :
  expiry_in_cache s -> expiry_in_cache (mc_step s o).
Proof.
  unfold expiry_in_cache. intros Hinv.
  destruct o as [key now | key v ttl now | key | key now]; simpl.
  - rewrite mc_get_state. destruct (negb (in_cache s key) || is_expired s key now); [| exact Hinv].
    simpl. intros k e He. destruct (decide (k = key)) as [-> | Hne].
    + rewrite lookup_delete_eq in He. discriminate.
    + rewrite lookup_delete_ne in He by congruence.
      rewrite lookup_delete_ne by congruence. exact (Hinv k e He).
  - unfold mc_set. destruct (ttl_truthy ttl); simpl; intros k e He;
      (destruct (decide (k = key)) as [-> | Hne];
       [rewrite lookup_insert_eq; eauto |
        rewrite lookup_insert_ne by congruence;
        first [ (rewrite lookup_insert_ne in He by congruence)
              | (rewrite lookup_delete_ne in He by congruence) ];
        exact (Hinv k e He)]).
  - unfold mc_delete. simpl. intros k e He. destruct (decide (k = key)) as [-> | Hne].
    + rewrite lookup_delete_eq in He. discriminate.
    + rewrite lookup_delete_ne in He by congruence.
      rewrite lookup_delete_ne by congruence. exact (Hinv k e He).
  - exact Hinv.
Qed.

(** X3: the two dicts stay consistent: after any sequence of [get], [set],
    [delete] and [exists] on a new [MemoryCache], every key that has an
    expiry in [_expiry] has a value in [_cache]. *)
Theorem mc_run_expiry_in_cache (ops : list mc_op) :
  expiry_in_cache (mc_run MemoryCache_init ops).
Proof.
  assert (Hgen : forall s, expiry_in_cache s -> expiry_in_cache (mc_run s ops)).
  { induction ops as [| o ops IH]; intros s Hs; [exact Hs |].
    rewrite mc_run_cons. apply IH, mc_step_expiry_in_cache, Hs. }
  apply Hgen. intros k e He. cbn [MemoryCache_init mc_expiry] in He.
  rewrite lookup_empty in He. discriminate.
Qed.

(** ** [CachedMethod] *)




(** X5: with a non-zero TTL [t], once the entry stored by a call that ran
    the function has expired, the next call with the same arguments runs
    the function again and returns what it returns. *)
Theorem cm_call_recomputes_after_ttl (cm : CachedMethod) (fname : string) (func : pyfunc)
    (args : list pyval) (kwargs : list (string * pyval)) (t tg1 ts1 tg2 ts2 : Z)
    (c0 : mcache) (n0 : nat) (key : string) (v1 : pyval) (c1 : mcache) (n1 : nat) :
  cm_ttl cm = Some t -> t <> 0 ->
  cm_cache_key cm fname args kwargs = inr key ->
  cm_call cm fname func args kwargs tg1 ts1 (c0, n0) = (inr v1, (c1, n1)) ->
  n1 = S n0 ->
  ts1 + seconds t < tg2 ->
  fst (cm_call cm fname func args kwargs tg2 ts2 (c1, n1)) = func n1 args kwargs /\
  snd (snd (cm_call cm fname func args kwargs tg2 ts2 (c1, n1))) = S n1.
Proof.
  intros Httl Ht Hkey H1 Hn Hexp.
  unfold cm_call in H1. rewrite Hkey in H1.
  destruct (mc_get c0 key tg1) as [cached c] eqn:Hg.
  destruct (is_none cached) eqn:Hnone; simpl in H1.
  - destruct (func n0 args kwargs) as [e | r]; [discriminate |].
    injection H1 as <- <- <-. rewrite Httl.
    destruct (mc_set_ttl_read c key r t ts1 tg2 Ht) as [_ Hread].
    destruct (Hread Hexp) as [Hpn _].
    unfold cm_call. rewrite Hkey.
    destruct (mc_get (mc_set c key r (Some t) ts1) key tg2) as [cr c2] eqn:Hg2.
    simpl in Hpn. subst cr. simpl.
    destruct (func (S n0) args kwargs); split; reflexivity.
  - injection H1 as _ _ <-. lia.
Qed.

Lemma cm_call_recomputes_after_ttl_witness :
  let cm := MkCachedMethod (Some 60) "" in
  let f : pyfunc := fun n _ _ => ret (PyInt (Z.of_nat n)) in
  (exists key, cm_cache_key cm "f" [PyNone] [] = inr key) /\
  cm_call cm "f" f [PyNone] [] 0 0 (MemoryCache_init, O) =
    (inr (PyInt 0), (fst (snd (cm_call cm "f" f [PyNone] [] 0 0 (MemoryCache_init, O))), 1%nat)) /\
  fst (cm_call cm "f" f [PyNone] [] 60000001 60000001
         (fst (snd (cm_call cm "f" f [PyNone] [] 0 0 (MemoryCache_init, O))), 1%nat)) =
    ret (PyInt 1).
Proof.
  intros cm f.
  destruct (cm_cache_key cm "f" [PyNone] []) as [e | key] eqn:Hk;
    [vm_compute in Hk; discriminate |].
  assert (H1 : cm_call cm "f" f [PyNone] [] 0 0 (MemoryCache_init, O) =
    (inr (PyInt 0), (fst (snd (cm_call cm "f" f [PyNone] [] 0 0 (MemoryCache_init, O))), 1%nat)))
    by (vm_compute; reflexivity).
  split; [exists key; reflexivity |]. split; [exact H1 |].
  exact (proj1 (cm_call_recomputes_after_ttl cm "f" f [PyNone] [] 60 0 0 60000001 60000001
                  MemoryCache_init O key (PyInt 0) _ 1%nat eq_refl ltac:(lia) Hk H1
                  eq_refl ltac:(unfold seconds; lia))).
Defined.

(** X6: when the function raises, the call raises the same exception and
    stores nothing: the cache is left as the lookup left it, so the next
    call runs the function again. *)
Theorem cm_call_error_not_cached (cm : CachedMethod) (fname : string) (func : pyfunc)
    (args : list pyval) (kwargs : list (string * pyval)) (tg ts : Z)
    (c0 : mcache) (n0 : nat) (key : string) (e : exn) (c1 : mcache) (n1 : nat) :
  cm_cache_key cm fname args kwargs = inr key ->
  cm_call cm fname func args kwargs tg ts (c0, n0) = (inl e, (c1, n1)) ->
  func n0 args kwargs = inl e /\ n1 = S n0 /\ c1 = snd (mc_get c0 key tg).
Proof.
  intros Hkey H. unfold cm_call in H. rewrite Hkey in H.
  destruct (mc_get c0 key tg) as [cached c] eqn:Hg.
  destruct (is_none cached); simpl in H; [| discriminate].
  destruct (func n0 args kwargs) as [e' | r]; [| discriminate].
  injection H as -> <- <-. auto.
Qed.

Lemma cm_call_error_not_cached_witness :
  let cm := MkCachedMethod None "" in
  let f := raising_func (ValueError "bad") in
  (exists key, cm_cache_key cm "f" [PyNone] [] = inr key /\
     snd (cm_call cm "f" f [PyNone] [] 0 0 (MemoryCache_init, O)) =
       (snd (mc_get MemoryCache_init key 0), 1%nat)) /\
  fst (cm_call cm "f" f [PyNone] [] 0 0 (MemoryCache_init, O)) = inl (ValueError "bad").
Proof.
  intros cm f.
  destruct (cm_cache_key cm "f" [PyNone] []) as [e | key] eqn:Hk;
    [vm_compute in Hk; discriminate |].
  destruct (cm_call cm "f" f [PyNone] [] 0 0 (MemoryCache_init, O)) as [r [c1 n1]] eqn:H.
  assert (Hr : r = inl (ValueError "bad")).
  { vm_compute in H. injection H as <- _ _. reflexivity. }
  subst r.
  destruct (cm_call_error_not_cached cm "f" f [PyNone] [] 0 0 MemoryCache_init O key
              (ValueError "bad") c1 n1 Hk H) as [_ [-> ->]].
  split; [exists key; split; [reflexivity | reflexivity] | reflexivity].
Defined.



(** ** [RedisCache] *)

(** X8: with the Redis server unreachable, every operation is absorbed:
    [set] of a JSON-serializable value returns normally and changes
    nothing, [delete] returns normally, and [exists] answers [False]. *)
Theorem rc_unreachable_absorbed (rc : RedisCache) (srv : rserver) (key : string)
    (value : pyval) (ttl : option Z) (now : Z) (js : string) :
  rs_up srv = false -> json_dumps value false = inr js ->
  rc_set rc srv key value ttl now = (ret tt, srv) /\
  rc_delete rc srv key = (ret tt, srv) /\
  rc_exists rc srv key now = ret false.
Proof.
  intros Hup Hjs. unfold rc_set, rc_delete, rc_exists, r_setex, r_set, r_delete, r_exists.
  rewrite Hjs, Hup. simpl. destruct (ttl_truthy ttl); auto.
Qed.

Lemma rc_unreachable_absorbed_witness :
  let srv := MkRServer false ∅ in
  json_dumps (PyInt 1) false = inr "1" /\
  rc_set (MkRedisCache "scout:") srv "k" (PyInt 1) (Some 60) 0 = (ret tt, srv) /\
  rc_delete (MkRedisCache "scout:") srv "k" = (ret tt, srv) /\
  rc_exists (MkRedisCache "scout:") srv "k" 0 = ret false.
Proof.
  intros srv. assert (Hjs : json_dumps (PyInt 1) false = inr "1") by reflexivity.
  split; [exact Hjs |].
  exact (rc_unreachable_absorbed (MkRedisCache "scout:") srv "k" (PyInt 1) (Some 60) 0 "1"
           eq_refl Hjs).
Defined.

(** X9: on a reachable server, [set] stores the JSON text of the value
    under the prefixed key, and [exists] answers [True] at every instant
    before the expiry (always, when the TTL is [None] or [0]). *)
Theorem rc_set_then_exists (rc : RedisCache) (srv : rserver) (key : string)
    (value : pyval) (ttl : option Z) (now t : Z) (js : string) :
  rs_up srv = true -> json_dumps value false = inr js ->
  (ttl_truthy ttl = false \/ (0 < default 0 ttl /\ t < now + seconds (default 0 ttl))) ->
  fst (rc_set rc srv key value ttl now) = ret tt /\
  r_get (snd (rc_set rc srv key value ttl now)) (rc_make_key rc key) t = ret (Some js) /\
  rc_exists rc (snd (rc_set rc srv key value ttl now)) key t = ret true.
Proof.
  intros Hup Hjs Hcase. unfold rc_set. rewrite Hjs. simpl.
  destruct (ttl_truthy ttl) eqn:Htr.
  - destruct Hcase as [Hf | [Hpos Ht]]; [discriminate |].
    unfold r_setex. rewrite Hup.
    assert (Z.leb (default 0 ttl) 0 = false) as -> by (apply Z.leb_gt; exact Hpos).
    unfold r_get, rc_exists, r_exists. simpl. rewrite lookup_insert_eq. simpl.
    assert (Z.ltb t (now + seconds (default 0 ttl)) = true) as -> by (apply Z.ltb_lt; exact Ht).
    auto.
  - unfold r_set. rewrite Hup. unfold r_get, rc_exists, r_exists. simpl.
    rewrite lookup_insert_eq. simpl. auto.
Qed.

Lemma rc_set_then_exists_witness :
  let srv := MkRServer true ∅ in
  let rc := MkRedisCache "scout:" in
  json_dumps (PyStr "v") false = inr (json_quote "v") /\
  r_get (snd (rc_set rc srv "k" (PyStr "v") (Some 60) 0)) (rc_make_key rc "k") 59000000 =
    ret (Some (json_quote "v")) /\
  rc_exists rc (snd (rc_set rc srv "k" (PyStr "v") (Some 60) 0)) "k" 59000000 = ret true.
Proof.
  intros srv rc. assert (Hjs : json_dumps (PyStr "v") false = inr (json_quote "v")) by reflexivity.
  split; [exact Hjs |].
  destruct (rc_set_then_exists rc srv "k" (PyStr "v") (Some 60) 0 59000000 (json_quote "v")
              eq_refl Hjs) as [_ H]; [right; unfold seconds; simpl; lia |].
  exact H.
Defined.

(** X10: [set] with a negative TTL stores nothing and returns normally:
    the server refuses [SETEX] with a non-positive time, and the
    [RedisError] is caught. *)
Theorem rc_set_negative_ttl_dropped (rc : RedisCache) (srv : rserver) (key : string)
    (value : pyval) (t now : Z) (js : string) :
  t < 0 -> json_dumps value false = inr js ->
  rc_set rc srv key value (Some t) now = (ret tt, srv).
Proof.
  intros Ht Hjs. unfold rc_set. rewrite Hjs. simpl.
  assert (negb (Z.eqb t 0) = true) as -> by (apply negb_true_iff, Z.eqb_neq; lia).
  unfold r_setex. simpl.
  assert (Z.leb t 0 = true) as -> by (apply Z.leb_le; lia).
  destruct (rs_up srv); reflexivity.
Qed.

Lemma rc_set_negative_ttl_dropped_witness :
  json_dumps (PyInt 1) false = inr "1" /\
  rc_set (MkRedisCache "scout:") (MkRServer true ∅) "k" (PyInt 1) (Some (-5)) 0 =
    (ret tt, MkRServer true ∅).
Proof.
  assert (Hjs : json_dumps (PyInt 1) false = inr "1") by reflexivity.
  split; [exact Hjs |].
  exact (rc_set_negative_ttl_dropped (MkRedisCache "scout:") (MkRServer true ∅) "k" (PyInt 1)
           (-5) 0 "1" ltac:(lia) Hjs).
Defined.

(** ** [Scraper._cache_get] and [Scraper._cache_set] *)

(** X11: with a [MemoryCache], [_cache_get] returns what [_cache_set]
    stored under the key, at every instant up to the expiry (at every
    instant when the TTL is [None] or [0]); without a cache, [_cache_set]
    does nothing and [_cache_get] returns [None]. *)
Theorem scraper_cache_set_get (cache : option mcache) (key : string) (v : pyval)
    (ttl : option Z) (now t : Z) :
  (ttl_truthy ttl = false \/ t <= now + seconds (default 0 ttl)) ->
  fst (scraper_cache_get (scraper_cache_set cache key v ttl now) key t) =
    match cache with None => PyNone | Some _ => v end.
Proof.
  intros Hcase. destruct cache as [c |]; [| reflexivity]. simpl.
  destruct (mc_set_lookups c key v ttl now) as [Hc He].
  destruct (mc_get (mc_set c key v ttl now) key t) as [r c'] eqn:Hg. simpl.
  unfold mc_get, in_cache, is_expired in Hg. rewrite Hc, He in Hg.
  destruct (ttl_truthy ttl); simpl in Hg.
  - destruct Hcase as [Hf | Ht]; [discriminate |].
    assert (Z.ltb (now + seconds (default 0 ttl)) t = false) as Hlt by (apply Z.ltb_ge; lia).
    rewrite Hlt in Hg. simpl in Hg. injection Hg as <- _. reflexivity.
  - injection Hg as <- _. reflexivity.
Qed.

Lemma scraper_cache_set_get_witness :
  fst (scraper_cache_get (scraper_cache_set (Some MemoryCache_init) "k" (PyInt 4) (Some 10) 0)
                         "k" 10000000) = PyInt 4.
Proof.
  assert (Ht : 10000000 <= 0 + seconds (default 0 (Some 10))) by (unfold seconds; simpl; lia).
  exact (scraper_cache_set_get (Some MemoryCache_init) "k" (PyInt 4) (Some 10) 0 10000000
           (or_intror Ht)).
Defined.

(** ** Cache keys *)

Lemma le_bytes_range (w : nat) (x : Z) : Forall (fun b => 0 <= b < 256) (le_bytes w x).
Proof.
  revert x. induction w as [| w IH]; intros x; simpl; constructor; [| apply IH].
  apply Z.mod_pos_bound. lia.
Qed.

Lemma md5_bytes (msg : list Z) :
  length (md5 msg) = 16%nat /\ Forall (fun b => 0 <= b < 256) (md5 msg).
Proof.
  unfold md5.
  destruct (fold_left md5_block _ _) as [[[a b] c] d].
  split; [reflexivity |].
  repeat apply Forall_app_2; apply le_bytes_range.
Qed.

Lemma hex_char_lower (d : nat) : (d < 16)%nat -> is_lower_hex (hex_char d) = true.
Proof.
  intros Hd. do 16 (destruct d as [| d]; [reflexivity |]). lia.
Qed.

Lemma hexdigest_lower (bs : list Z) :
  Forall (fun b => 0 <= b < 256) bs ->
  String.length (hexdigest bs) = (2 * length bs)%nat /\
  forallb is_lower_hex (list_ascii_of_string (hexdigest bs)) = true.
Proof.
  induction bs as [| b bs IH]; intros Hall; [split; reflexivity |].
  inversion Hall as [| ? ? Hb Hbs]; subst.
  destruct (IH Hbs) as [Hlen Hhex].
  assert (Hcons : hexdigest (b :: bs) =
    String (hex_char (Z.to_nat b / 16)) (String (hex_char (Z.to_nat b mod 16)) (hexdigest bs)))
    by reflexivity.
  rewrite Hcons. cbn [String.length list_ascii_of_string forallb length].
  rewrite Hlen, Hhex.
  rewrite (hex_char_lower (Z.to_nat b / 16)), (hex_char_lower (Z.to_nat b mod 16)).
  - split; [lia | reflexivity].
  - apply Nat.mod_upper_bound. lia.
  - apply Nat.Div0.div_lt_upper_bound. lia.
Qed.

(** X12: a key from [create_cache_key] is always 32 lowercase hexadecimal
    digits, whatever the arguments. *)
Theorem create_cache_key_hex (args : list pyval) (kwargs : list (string * pyval)) (k : string) :
  create_cache_key args kwargs = inr k ->
  String.length k = 32%nat /\ forallb is_lower_hex (list_ascii_of_string k) = true.
Proof.
  unfold create_cache_key, bind. intros H.
  destruct (py_sorted (kwargs_items kwargs)) as [e | items]; [discriminate |].
  match type of H with context [json_dumps ?kd true] =>
    destruct (json_dumps kd true) as [e | js] end; [discriminate |].
  injection H as <-. unfold md5_hexdigest.
  destruct (md5_bytes (encode js)) as [Hl Hr].
  destruct (hexdigest_lower _ Hr) as [Hlen Hhex]. rewrite Hl in Hlen. auto.
Qed.

Lemma create_cache_key_hex_witness :
  create_cache_key [PyInt 1] [] = inr "a4b585d8b23790e3c5954245c2ad3eaa" /\
  String.length "a4b585d8b23790e3c5954245c2ad3eaa" = 32%nat /\
  forallb is_lower_hex (list_ascii_of_string "a4b585d8b23790e3c5954245c2ad3eaa") = true.
Proof.
  assert (H : create_cache_key [PyInt 1] [] = inr "a4b585d8b23790e3c5954245c2ad3eaa")
    by (vm_compute; reflexivity).
  split; [exact H |]. exact (create_cache_key_hex [PyInt 1] [] _ H).
Defined.

Lemma string_length_app (a b : string) :
  String.length (String.append a b) = (String.length a + String.length b)%nat.
Proof. induction a as [| c a IH]; simpl; [reflexivity | rewrite IH; reflexivity]. Qed.

Lemma string_app_inj (a b c d : string) :
  String.length a = String.length c -> String.append a b = String.append c d -> a = c /\ b = d.
Proof.
  revert c. induction a as [| x a IH]; intros c Hl H; destruct c as [| y c];
    simpl in *; try discriminate; [auto |].
  injection Hl as Hl. injection H as -> H.
  destruct (IH c Hl H) as [-> ->]. auto.
Qed.

Lemma string_length_concat3 (a b c : string) :
  String.length (concat_str [a; b; c]) =
    (String.length a + String.length b + String.length c)%nat.
Proof.
  change (concat_str [a; b; c]) with (String.append a (String.append b (String.append c ""))).
  rewrite !string_length_app. simpl. lia.
Qed.

(** X13: the keys of two scraper classes with different names never
    coincide, whatever the arguments of each: the class name is followed
    by [:] and a hash of fixed length. *)
Theorem scraper_keys_distinct_classes (c1 c2 : string) (args1 args2 : list pyval)
    (kw1 kw2 : list (string * pyval)) (k1 k2 : string) :
  c1 <> c2 ->
  scraper_get_cache_key c1 args1 kw1 = inr k1 ->
  scraper_get_cache_key c2 args2 kw2 = inr k2 ->
  k1 <> k2.
Proof.
  intros Hne H1 H2. unfold scraper_get_cache_key in H1, H2.
  destruct (create_cache_key args1 kw1) as [e | h1] eqn:Hh1; [discriminate |].
  destruct (create_cache_key args2 kw2) as [e | h2] eqn:Hh2; [discriminate |].
  cbn [bind ret] in H1, H2. injection H1 as <-. injection H2 as <-.
  destruct (create_cache_key_hex _ _ _ Hh1) as [Hl1 _].
  destruct (create_cache_key_hex _ _ _ Hh2) as [Hl2 _].
  intros Heq. apply Hne.
  assert (Hlen : String.length c1 = String.length c2).
  { apply (f_equal String.length) in Heq. rewrite ?string_length_concat3, ?string_length_app in Heq.
    simpl in Heq. lia. }
  exact (proj1 (string_app_inj c1 (concat_str [":"; h1]) c2 (concat_str [":"; h2]) Hlen Heq)).
Qed.

Lemma scraper_keys_distinct_classes_witness :
  exists k1 k2, scraper_get_cache_key "TwitterScraper" [PyInt 1] [] = inr k1 /\
                scraper_get_cache_key "RedditScraper" [PyInt 1] [] = inr k2 /\ k1 <> k2.
Proof.
  destruct (scraper_get_cache_key "TwitterScraper" [PyInt 1] []) as [e | k1] eqn:H1;
    [vm_compute in H1; discriminate |].
  destruct (scraper_get_cache_key "RedditScraper" [PyInt 1] []) as [e | k2] eqn:H2;
    [vm_compute in H2; discriminate |].
  exists k1, k2. split; [reflexivity |]. split; [reflexivity |].
  exact (scraper_keys_distinct_classes "TwitterScraper" "RedditScraper" [PyInt 1] [PyInt 1]
           [] [] k1 k2 ltac:(discriminate) H1 H2).
Defined.

(** X14: with the same [key_prefix], the keys of two memoized functions
    with different names never coincide, whatever their arguments. *)
Theorem cm_keys_distinct_functions (cm : CachedMethod) (f1 f2 : string)
    (args1 args2 : list pyval) (kw1 kw2 : list (string * pyval)) (k1 k2 : string) :
  f1 <> f2 ->
  cm_cache_key cm f1 args1 kw1 = inr k1 ->
  cm_cache_key cm f2 args2 kw2 = inr k2 ->
  k1 <> k2.
Proof.
  intros Hne H1 H2. unfold cm_cache_key in H1, H2.
  destruct (create_cache_key (tl args1) kw1) as [e | h1] eqn:Hh1; [discriminate |].
  destruct (create_cache_key (tl args2) kw2) as [e | h2] eqn:Hh2; [discriminate |].
  cbn [bind ret] in H1, H2. injection H1 as <-. injection H2 as <-.
  destruct (create_cache_key_hex _ _ _ Hh1) as [Hl1 _].
  destruct (create_cache_key_hex _ _ _ Hh2) as [Hl2 _].
  intros Heq. apply Hne.
  destruct (string_app_inj (cm_key_prefix cm) (concat_str [f1; ":"; h1])
              (cm_key_prefix cm) (concat_str [f2; ":"; h2]) eq_refl Heq) as [_ Heq'].
  assert (Hlen : String.length f1 = String.length f2).
  { apply (f_equal String.length) in Heq'. rewrite ?string_length_concat3, ?string_length_app in Heq'.
    simpl in Heq'. lia. }
  exact (proj1 (string_app_inj f1 (concat_str [":"; h1]) f2 (concat_str [":"; h2]) Hlen Heq')).
Qed.

Lemma cm_keys_distinct_functions_witness :
  exists k1 k2, cm_cache_key (MkCachedMethod None "") "get_a" [PyNone] [] = inr k1 /\
                cm_cache_key (MkCachedMethod None "") "get_b" [PyNone] [] = inr k2 /\ k1 <> k2.
Proof.
  destruct (cm_cache_key (MkCachedMethod None "") "get_a" [PyNone] []) as [e | k1] eqn:H1;
    [vm_compute in H1; discriminate |].
  destruct (cm_cache_key (MkCachedMethod None "") "get_b" [PyNone] []) as [e | k2] eqn:H2;
    [vm_compute in H2; discriminate |].
  exists k1, k2. split; [reflexivity |]. split; [reflexivity |].
  exact (cm_keys_distinct_functions (MkCachedMethod None "") "get_a" "get_b" [PyNone] [PyNone]
           [] [] k1 k2 ltac:(discriminate) H1 H2).
Defined.

(** ** [SourceAdapter] *)

Lemma introspect_methods_fold (raw : pyobject) :
  introspect_methods raw = fold_left (introspect_step raw) (py_dir raw) (ret ∅).
Proof. reflexivity. Qed.

Lemma introspect_fold_inl (raw : pyobject) (names : list string) (e : exn) :
  fold_left (introspect_step raw) names (inl e) = inl e.
Proof. induction names as [| nm names IH]; [reflexivity | exact IH]. Qed.

Lemma introspect_step_inl (raw : pyobject) (e : exn) (nm : string) :
  introspect_step raw (inl e) nm = inl e.
Proof. reflexivity. Qed.

Lemma introspect_fold_complete (raw : pyobject) (names : list string)
    (acc : res (gmap string pycallable)) (m : gmap string pycallable) (n : string)
    (f : pycallable) :
  fold_left (introspect_step raw) names acc = inr m ->
  starts_with_underscore n = false -> py_getattr raw n = ret (AttrCallable f) ->
  (In n names \/ exists m0, acc = inr m0 /\ m0 !! n = Some f) ->
  m !! n = Some f.
Proof.
  revert acc. induction names as [| nm names IH]; intros acc H Hu Hg Hin.
  - simpl in H. destruct Hin as [[] | [m0 [Hm0 Hf]]]. rewrite Hm0 in H.
    injection H as ->. exact Hf.
  - simpl in H. apply (IH _ H Hu Hg).
    destruct acc as [e | ma];
      [rewrite introspect_step_inl, introspect_fold_inl in H; discriminate |].
    destruct (in_dec string_dec n names) as [Hn | Hn]; [left; exact Hn | right].
    assert (Hcase : n = nm \/ ma !! n = Some f).
    { destruct Hin as [[-> | Hn'] | [m0 [Hm0 Hf]]]; [auto | contradiction |].
      injection Hm0 as <-. auto. }
    destruct Hcase as [-> | Hf].
    + unfold introspect_step. cbn [bind]. rewrite Hu, Hg. simpl.
      eexists. split; [reflexivity | apply lookup_insert_eq].
    + destruct (starts_with_underscore nm) eqn:Hunm.
      { unfold introspect_step. cbn [bind]. rewrite Hunm.
        eexists; split; [reflexivity | exact Hf]. }
      destruct (py_getattr raw nm) as [e | a] eqn:Hga.
      { assert (Hs : introspect_step raw (inr ma) nm = inl e)
          by (unfold introspect_step; cbn [bind]; rewrite Hunm, Hga; reflexivity).
        rewrite Hs, introspect_fold_inl in H. discriminate. }
      unfold introspect_step. cbn [bind]. rewrite Hunm, Hga. simpl.
      destruct a as [g | v]; (eexists; split; [reflexivity |]); [| exact Hf].
      destruct (decide (nm = n)) as [-> | Hne].
      * rewrite Hg in Hga. injection Hga as ->. apply lookup_insert_eq.
      * rewrite lookup_insert_ne by exact Hne. exact Hf.
Qed.

Lemma introspect_fold_public (raw : pyobject) (names : list string)
    (acc : res (gmap string pycallable)) (m : gmap string pycallable) :
  fold_left (introspect_step raw) names acc = inr m ->
  (forall m0, acc = inr m0 -> forall n f, m0 !! n = Some f -> starts_with_underscore n = false) ->
  forall n f, m !! n = Some f -> starts_with_underscore n = false.
Proof.
  revert acc. induction names as [| nm names IH]; intros acc H Hacc.
  - simpl in H. exact (Hacc m H).
  - simpl in H. apply (IH _ H). intros m0 Hm0 n f Hf.
    destruct acc as [e | ma]; [discriminate |].
    unfold introspect_step in Hm0. cbn [bind] in Hm0.
    destruct (starts_with_underscore nm) eqn:Hu;
      [injection Hm0 as <-; exact (Hacc ma eq_refl n f Hf) |].
    destruct (py_getattr raw nm) as [e | [g | v]]; simpl in Hm0; [discriminate | |];
      injection Hm0 as <-; [| exact (Hacc ma eq_refl n f Hf)].
    destruct (decide (nm = n)) as [-> | Hne]; [exact Hu |].
    rewrite lookup_insert_ne in Hf by exact Hne. exact (Hacc ma eq_refl n f Hf).
Qed.

Lemma py_getattr_in_dir (raw : pyobject) (name : string) (a : attr) :
  py_getattr raw name = ret a -> In name (py_dir raw).
Proof.
  unfold py_getattr, py_dir.
  destruct (find (fun na => String.eqb (fst na) name) (obj_attrs raw)) as [[nm a'] |] eqn:Hf;
    [| discriminate].
  intros _. apply find_some in Hf as [Hin Heq]. simpl in Heq.
  apply String.eqb_eq in Heq. subst nm.
  apply (in_map fst) in Hin. exact Hin.
Qed.

(** X15: the method table that [_introspect_methods] builds holds exactly
    the public callable attributes of the source: a name is in it, bound
    to [f], if and only if it does not start with [_] and the source's
    attribute of that name is the callable [f]. *)
Theorem introspect_methods_exact (raw : pyobject) (m : gmap string pycallable) :
  introspect_methods raw = inr m ->
  forall name f, m !! name = Some f <->
    starts_with_underscore name = false /\ py_getattr raw name = ret (AttrCallable f).
Proof.
  intros H name f. split.
  - intros Hf. split.
    + rewrite introspect_methods_fold in H.
      refine (introspect_fold_public raw _ _ m H _ name f Hf).
      intros m0 Hm0 n g Hg. injection Hm0 as <-. rewrite lookup_empty in Hg. discriminate.
    + exact (introspect_methods_sound raw m H name f Hf).
  - intros [Hu Hg]. rewrite introspect_methods_fold in H.
    apply (introspect_fold_complete raw _ _ m name f H Hu Hg).
    left. exact (py_getattr_in_dir raw name _ Hg).
Qed.

Lemma introspect_methods_exact_witness :
  exists m, introspect_methods demo_client = inr m /\
    (is_Some (m !! "get_user") <->
     exists f, starts_with_underscore "get_user" = false /\
               py_getattr demo_client "get_user" = ret (AttrCallable f)).
Proof.
  destruct (introspect_methods demo_client) as [e | m] eqn:H; [vm_compute in H; discriminate |].
  exists m. split; [reflexivity |].
  split.
  - intros [f Hf]. exists f.
    exact (proj1 (introspect_methods_exact demo_client m H "get_user" f) Hf).
  - intros [f Hf]. exists f.
    exact (proj2 (introspect_methods_exact demo_client m H "get_user" f) Hf).
Defined.

(** X16: through an adapter, a private attribute of the source (a name
    starting with [_]), even a callable one, and a non-callable attribute
    both raise [AttributeError] (not found in source). *)
Theorem sa_call_private_or_value (raw : pyobject) (a : SourceAdapter) (name : string)
    (args : list pyval) (kwargs : list (string * pyval)) :
  SourceAdapter_new raw = inr a ->
  (starts_with_underscore name = true \/ exists v, py_getattr raw name = ret (AttrValue v)) ->
  sa_call a name args kwargs =
    raise (AttributeError (concat_str ["Method '"; name; "' not found in source"])).
Proof.
  unfold SourceAdapter_new. destruct (introspect_methods raw) as [e | m] eqn:Hm;
    simpl; intros H; [discriminate |]. injection H as <-.
  intros Hcase. unfold sa_call. cbn [sa_methods]. unfold pycallable in *.
  destruct (m !! name) as [f |] eqn:Hf; [| reflexivity].
  destruct (proj1 (introspect_methods_exact raw m Hm name f) Hf) as [Hu Hg].
  destruct Hcase as [Hu' | [v Hv]]; [congruence |].
  rewrite Hg in Hv. discriminate.
Qed.

Lemma sa_call_private_or_value_witness :
  exists a, SourceAdapter_new demo_client = inr a /\
    sa_call a "_secret" [] [] =
      raise (AttributeError (concat_str ["Method '"; "_secret"; "' not found in source"])) /\
    sa_call a "version" [] [] =
      raise (AttributeError (concat_str ["Method '"; "version"; "' not found in source"])).
Proof.
  destruct (SourceAdapter_new demo_client) as [e | a] eqn:H; [vm_compute in H; discriminate |].
  exists a. split; [reflexivity |]. split.
  - apply (sa_call_private_or_value demo_client a "_secret" [] [] H). left. reflexivity.
  - apply (sa_call_private_or_value demo_client a "version" [] [] H). right.
    exists (PyStr "2"). reflexivity.
Defined.

(** ** [TwitterScraper] *)

Ltac se_red := unfold ret, raise in *; cbn iota beta zeta.

Lemma get_tweets_cached_ext (client client' : TweepyClient) (uid : string) (now : Z)
    (st : option rserver) :
  get_users_tweets client uid 10 = get_users_tweets client' uid 10 ->
  get_tweets_cached client uid now st = get_tweets_cached client' uid now st.
Proof.
  intros H. unfold get_tweets_cached, se_bind, se_lift. rewrite H. reflexivity.
Qed.

Lemma get_user_id_cached_hit (client : TweepyClient) (username : string) (srv : rserver)
    (now : Z) (c : string) :
  r_get srv (String.append "twitter_user_id:" username) now = ret (Some c) -> c <> ""%string ->
  get_user_id_cached client username now (Some srv) = (ret c, Some srv).
Proof.
  intros Hr Hc. unfold get_user_id_cached, se_bind, has_redis, se_redis_get, se_ret.
  se_red. rewrite Hr. se_red.
  assert (String.eqb c "" = false) as -> by (apply String.eqb_neq; exact Hc).
  reflexivity.
Qed.

(** X17: when Redis holds a live, non-empty user id, [scrape()] does not
    look the user up: its outcome does not depend on [get_user], and the
    tweets are requested for the cached id. *)
Theorem scrape_cached_id_skips_lookup (client client' : TweepyClient) (srv : rserver)
    (now : Z) (c : string) :
  r_get srv "twitter_user_id:elonmusk" now = ret (Some c) -> c <> ""%string ->
  get_users_tweets client c 10 = get_users_tweets client' c 10 ->
  scrape client now (Some srv) = scrape client' now (Some srv).
Proof.
  intros Hr Hc Ht.
  assert (Hf : forall cl, get_users_tweets cl c 10 = get_users_tweets client c 10 ->
               fetch_tweets cl now (Some srv) = get_tweets_cached client c now (Some srv)).
  { intros cl Hcl. unfold fetch_tweets, se_bind.
    rewrite (get_user_id_cached_hit cl "elonmusk" srv now c Hr Hc).
    apply get_tweets_cached_ext. exact Hcl. }
  unfold scrape, se_bind.
  rewrite (Hf client eq_refl), (Hf client' (eq_sym Ht)). reflexivity.
Qed.

Lemma scrape_cached_id_skips_lookup_witness :
  let srv := MkRServer true (<["twitter_user_id:elonmusk" := ("44196397", None)]> ∅) in
  let tweets := fun _ _ => ret (TResponse (PyList [PyStr "hi"])) in
  let client' := MkTweepyClient (fun _ => ret (TResponse (PyDict [(PyStr "id", PyInt 1)]))) tweets in
  scrape (MkTweepyClient (fun _ => raise (ClientError "boom")) tweets) 0 (Some srv) =
  scrape client' 0 (Some srv).
Proof.
  intros srv tweets client'.
  apply (scrape_cached_id_skips_lookup _ client' srv 0 "44196397");
    [reflexivity | discriminate | reflexivity].
Defined.

(** X18: a successful lookup of a user with no cached id stores the id
    (as [str]) in Redis, where it reads back for 30 days. *)
Theorem get_user_id_cached_stores (client : TweepyClient) (username : string) (srv : rserver)
    (now : Z) (d idv : pyval) :
  rs_up srv = true ->
  r_get srv (String.append "twitter_user_id:" username) now = ret None ->
  get_user client username = ret (TResponse d) ->
  py_getitem_str d "id" = ret idv ->
  exists srv', get_user_id_cached client username now (Some srv) = (ret (py_str idv), Some srv') /\
    forall t, t < now + seconds 2592000 ->
      r_get srv' (String.append "twitter_user_id:" username) t = ret (Some (py_str idv)).
Proof.
  intros Hup Hr Hu Hid.
  unfold get_user_id_cached, user_id_from_api, se_bind, has_redis, se_redis_get, se_ret,
    se_lift, se_redis_setex.
  se_red. rewrite Hr. se_red. rewrite Hu. se_red.
  simpl assert_response. se_red. rewrite Hid. se_red.
  unfold r_setex. rewrite Hup. simpl Z.leb. se_red.
  eexists. split; [reflexivity |].
  intros t Ht. unfold r_get. simpl. rewrite lookup_insert_eq. simpl.
  assert (Z.ltb t (now + seconds 2592000) = true) as -> by (apply Z.ltb_lt; exact Ht).
  reflexivity.
Qed.

Lemma get_user_id_cached_stores_witness :
  let client := MkTweepyClient (fun _ => ret (TResponse (PyDict [(PyStr "id", PyInt 44196397)])))
                               (fun _ _ => ret (TResponse (PyList []))) in
  exists srv', get_user_id_cached client "elonmusk" 0 (Some (MkRServer true ∅)) =
                 (ret "44196397", Some srv') /\
    r_get srv' "twitter_user_id:elonmusk" 86400000000 = ret (Some "44196397").
Proof.
  intros client.
  assert (Hr : r_get (MkRServer true ∅) (String.append "twitter_user_id:" "elonmusk") 0 = ret None)
    by (vm_compute; reflexivity).
  destruct (get_user_id_cached_stores client "elonmusk" (MkRServer true ∅) 0
              (PyDict [(PyStr "id", PyInt 44196397)]) (PyInt 44196397)
              eq_refl Hr eq_refl eq_refl) as [srv' [H1 H2]].
  exists srv'. split; [exact H1 |]. apply H2. unfold seconds. lia.
Defined.

(** X19: with the Redis server unreachable, [scrape()] raises
    [RedisError] whatever the Twitter client does: the first cache read
    fails before any API call. *)
Theorem scrape_redis_down (client : TweepyClient) (srv : rserver) (now : Z) :
  rs_up srv = false ->
  scrape client now (Some srv) = (inl RedisError, Some srv).
Proof.
  intros Hup. unfold scrape, fetch_tweets, get_user_id_cached, se_bind, has_redis,
    se_redis_get, se_ret.
  se_red. unfold r_get. rewrite Hup. reflexivity.
Qed.

Lemma scrape_redis_down_witness :
  scrape boom_client 0 (Some (MkRServer false ∅)) = (inl RedisError, Some (MkRServer false ∅)).
Proof. exact (scrape_redis_down boom_client (MkRServer false ∅) 0 eq_refl). Defined.

(** X20: [_get_tweets_cached] returns [[]] and writes nothing when the
    response has no data ([None] or empty); for a non-empty list with a
    reachable Redis it returns the data and stores the tweet count, as a
    decimal string, under [twitter_tweets:<id>] for 900 seconds. *)
Theorem get_tweets_cached_spec (client : TweepyClient) (uid : string) (now : Z)
    (st : option rserver) (d : pyval) :
  get_users_tweets client uid 10 = ret (TResponse d) ->
  (py_truthy d = false -> get_tweets_cached client uid now st = (ret (PyList []), st)) /\
  (forall l srv, d = PyList l -> l <> [] -> st = Some srv -> rs_up srv = true ->
     get_tweets_cached client uid now st =
       (ret d, Some (MkRServer true
                      (<[String.append "twitter_tweets:" uid :=
                           (z_dec (Z.of_nat (length l)), Some (now + seconds 900))]>
                         (rs_store srv))))).
Proof.
  intros H. split.
  - intros Hd. unfold get_tweets_cached, se_bind, se_lift, se_ret.
    rewrite H. se_red. simpl assert_response. se_red. rewrite Hd. reflexivity.
  - intros l srv -> Hl -> Hup.
    unfold get_tweets_cached, se_bind, se_lift, se_ret, has_redis, se_redis_setex.
    rewrite H. se_red. simpl assert_response. se_red.
    assert (py_truthy (PyList l) = true) as ->.
    { simpl. destruct l; [contradiction | reflexivity]. }
    unfold py_len, r_setex. simpl. rewrite Hup. reflexivity.
Qed.

Lemma get_tweets_cached_spec_witness :
  let client := MkTweepyClient (fun _ => raise KeyError)
                  (fun _ _ => ret (TResponse (PyList [PyStr "a"; PyStr "b"]))) in
  get_tweets_cached client "7" 0 (Some (MkRServer true ∅)) =
    (ret (PyList [PyStr "a"; PyStr "b"]),
     Some (MkRServer true (<[String.append "twitter_tweets:" "7" :=
                              (z_dec (Z.of_nat 2), Some (0 + seconds 900))]> ∅))).
Proof.
  intros client.
  exact (proj2 (get_tweets_cached_spec client "7" 0 (Some (MkRServer true ∅))
                  (PyList [PyStr "a"; PyStr "b"]) eq_refl)
           [PyStr "a"; PyStr "b"] (MkRServer true ∅) eq_refl ltac:(discriminate) eq_refl eq_refl).
Defined.

(** ** [load_dotenv] *)

Lemma ch_eq_spec (c d : ascii) : ch_eq c d = true <-> c = d.
Proof. unfold ch_eq. apply Ascii.eqb_eq. Qed.

Lemma ch_eq_false (c d : ascii) : ch_eq c d = false <-> c <> d.
Proof. unfold ch_eq. apply Ascii.eqb_neq. Qed.

Lemma dotenv_lines_cons (o : bool) (env : gmap string string) (line : list ascii)
    (rest : list (list ascii)) :
  dotenv_lines o env (line :: rest) =
    match dotenv_line o env line with
    | (Some e, env') => (Some e, env')
    | (None, env') => dotenv_lines o env' rest
    end.
Proof. reflexivity. Qed.

Lemma dotenv_line_keeps (env : gmap string string) (line : list ascii) (k v : string) :
  env !! k = Some v -> snd (dotenv_line false env line) !! k = Some v.
Proof.
  intros Hk. unfold dotenv_line.
  destruct ((match py_strip line with [] => true | _ => false end) || starts_with "#"%char (py_strip line));
    [exact Hk |].
  destruct (negb (existsb (fun c => ch_eq c "="%char) (py_strip line))); [exact Hk |].
  destruct (split_eq (py_strip line)) as [k0 v0].
  destruct (env !! string_of_list_ascii (py_strip k0)) eqn:Hkey; [exact Hk |].
  destruct (decide (string_of_list_ascii (py_strip k0) = k)) as [<- | Hne]; [congruence |].
  unfold environ_set.
  destruct (has_nul (py_strip k0) || has_nul (unquote (py_strip v0))); [exact Hk |].
  destruct (py_strip k0) as [| a l] eqn:Hs; [exact Hk |]. cbn [snd].
  rewrite lookup_insert_ne; [exact Hk | exact Hne].
Qed.

(** X21: with [override=False], loading never changes a variable that is
    already set, whatever the file holds (also when the load stops on an
    exception). *)
Theorem load_dotenv_no_override (file : option (list ascii)) (env : gmap string string)
    (k v : string) :
  env !! k = Some v -> snd (load_dotenv file false env) !! k = Some v.
Proof.
  intros Hk. destruct file as [text |]; [| exact Hk]. unfold load_dotenv.
  generalize (split_lines (translate_newlines text)) as lines.
  intros lines. revert env Hk. induction lines as [| line rest IH]; intros env Hk; [exact Hk |].
  rewrite dotenv_lines_cons.
  pose proof (dotenv_line_keeps env line k v Hk) as H1.
  destruct (dotenv_line false env line) as [[e |] env']; simpl in H1 |- *; [exact H1 |].
  apply IH, H1.
Qed.

Lemma load_dotenv_no_override_witness :
  let env := <["API_KEY" := "old"]> ∅ in
  env !! "API_KEY" = Some "old" /\
  snd (load_dotenv (Some (list_ascii_of_string "API_KEY=new")) false env) !! "API_KEY" = Some "old".
Proof.
  intros env. assert (Hk : env !! "API_KEY" = Some "old") by (vm_compute; reflexivity).
  split; [exact Hk |]. exact (load_dotenv_no_override _ env "API_KEY" "old" Hk).
Defined.

Lemma translate_newlines_id (l : list ascii) :
  (forall c, In c l -> c <> ch_cr) -> translate_newlines l = l.
Proof.
  induction l as [| c l IH]; intros H; [reflexivity |]. simpl.
  assert (Ascii.eqb c ch_cr = false) as -> by (apply Ascii.eqb_neq, H; left; reflexivity).
  rewrite IH; [reflexivity |]. intros d Hd. apply H. right. exact Hd.
Qed.

Lemma split_lines_acc_last (cur l : list ascii) :
  (forall c, In c l -> c <> ch_nl) ->
  split_lines_acc cur (l ++ [ch_nl]) = [rev cur ++ l ++ [ch_nl]].
Proof.
  revert cur. induction l as [| c l IH]; intros cur H; simpl.
  - reflexivity.
  - assert (Ascii.eqb c ch_nl = false) as -> by (apply Ascii.eqb_neq, H; left; reflexivity).
    rewrite IH; [simpl; rewrite <- app_assoc; reflexivity |].
    intros d Hd. apply H. right. exact Hd.
Qed.

Lemma lstrip_length (l : list ascii) : (length (lstrip l) <= length l)%nat.
Proof. induction l as [| c l IH]; simpl; [lia |]. destruct (is_py_space c); simpl; lia. Qed.

Lemma lstrip_keep (c : ascii) (l : list ascii) :
  is_py_space c = false -> lstrip (c :: l) = c :: l.
Proof. intros H. simpl. rewrite H. reflexivity. Qed.

Lemma py_strip_head (c : ascii) (l : list ascii) :
  py_strip (c :: l) = c :: l -> is_py_space c = false.
Proof.
  intros H. destruct (is_py_space c) eqn:Hc; [| reflexivity]. exfalso.
  apply (f_equal (@length ascii)) in H. unfold py_strip in H.
  rewrite length_rev in H. simpl in H. rewrite Hc in H.
  pose proof (lstrip_length (rev (lstrip l))) as H1.
  rewrite length_rev in H1. pose proof (lstrip_length l). lia.
Qed.

(** [py_strip] of a list that starts and ends with a non-space character
    leaves it as it is. *)
Lemma py_strip_keep (c d : ascii) (m : list ascii) :
  is_py_space c = false -> is_py_space d = false ->
  py_strip (c :: m ++ [d]) = c :: m ++ [d].
Proof.
  intros Hc Hd. unfold py_strip. rewrite lstrip_keep by exact Hc.
  change (c :: m ++ [d]) with ((c :: m) ++ [d]).
  rewrite rev_unit. rewrite lstrip_keep by exact Hd.
  cbn [rev]. rewrite rev_unit, rev_involutive. reflexivity.
Qed.

Lemma py_strip_trailing_space (c d e : ascii) (m : list ascii) :
  is_py_space c = false -> is_py_space d = false -> is_py_space e = true ->
  py_strip ((c :: m ++ [d]) ++ [e]) = c :: m ++ [d].
Proof.
  intros Hc Hd He. unfold py_strip.
  change ((c :: m ++ [d]) ++ [e]) with (c :: ((m ++ [d]) ++ [e])).
  rewrite lstrip_keep by exact Hc.
  change (c :: (m ++ [d]) ++ [e]) with ((c :: m ++ [d]) ++ [e]).
  rewrite rev_unit. cbn [lstrip]. rewrite He.
  change (c :: m ++ [d]) with ((c :: m) ++ [d]).
  rewrite rev_unit. rewrite lstrip_keep by exact Hd.
  cbn [rev]. rewrite rev_unit, rev_involutive. reflexivity.
Qed.

Lemma split_eq_first (k rest : list ascii) :
  (forall c, In c k -> c <> "="%char) -> split_eq (k ++ "="%char :: rest) = (k, rest).
Proof.
  induction k as [| c k IH]; intros H; simpl; [reflexivity |].
  assert (ch_eq c "="%char = false) as -> by (apply ch_eq_false, H; left; reflexivity).
  rewrite IH; [reflexivity |]. intros d Hd. apply H. right. exact Hd.
Qed.

Lemma line_chars (l : list ascii) :
  forallb line_char l = true ->
  forall c, In c l -> c <> ch_nl /\ c <> ch_cr /\ c <> chr 0.
Proof.
  intros H c Hc. rewrite forallb_forall in H. specialize (H c Hc).
  unfold line_char in H. apply negb_true_iff in H.
  apply orb_false_iff in H as [H H0]. apply orb_false_iff in H as [H1 H2].
  apply ch_eq_false in H0, H1, H2. auto.
Qed.

Lemma has_nul_false (l : list ascii) :
  (forall c, In c l -> c <> chr 0) -> has_nul l = false.
Proof.
  intros H. unfold has_nul. apply not_true_iff_false. intros Hx.
  apply existsb_exists in Hx as [c [Hc Heq]]. apply ch_eq_spec in Heq.
  exact (H c Hc Heq).
Qed.

(** X22: a line [KEY="VALUE"] loads back exactly: [os.environ[KEY]]
    becomes [VALUE], spaces and quotes inside it included, when [KEY] is
    a non-empty name without surrounding spaces, [=], or a leading [#],
    and neither holds a line break or NUL (with [override=False], when
    [KEY] is not yet set). *)
Theorem load_dotenv_quoted_roundtrip (k v : list ascii) (override : bool)
    (env : gmap string string) :
  k <> [] -> py_strip k = k -> starts_with "#"%char k = false ->
  forallb (fun c => negb (ch_eq c "="%char)) k = true ->
  forallb line_char k = true -> forallb line_char v = true ->
  (override = true \/ env !! string_of_list_ascii k = None) ->
  load_dotenv (Some (k ++ "="%char :: chr 34 :: v ++ [chr 34; ch_nl])) override env =
    (None, <[string_of_list_ascii k := string_of_list_ascii v]> env).
Proof.
  intros Hne Hks Hhash Heq Hk Hv Hov.
  destruct k as [| c k']; [contradiction |].
  pose proof (py_strip_head c k' Hks) as Hc.
  pose proof (line_chars _ Hk) as Hkc. pose proof (line_chars _ Hv) as Hvc.
  assert (Hkeq : forall d, In d (c :: k') -> d <> "="%char).
  { intros d Hd Hx. rewrite forallb_forall in Heq. specialize (Heq d Hd).
    subst d. discriminate. }
  set (L := (c :: k') ++ "="%char :: chr 34 :: v ++ [chr 34]).
  assert (Htext : (c :: k') ++ "="%char :: chr 34 :: v ++ [chr 34; ch_nl] = L ++ [ch_nl]).
  { unfold L. simpl. repeat (rewrite <- app_assoc; simpl). reflexivity. }
  assert (HL : forall d, In d L -> d <> ch_nl /\ d <> ch_cr).
  { intros d Hd. unfold L in Hd. apply in_app_or in Hd as [Hd | [<- | [<- | Hd]]].
    - destruct (Hkc d Hd) as [H1 [H2 _]]. auto.
    - split; discriminate.
    - split; discriminate.
    - apply in_app_or in Hd as [Hd | [<- | []]].
      + destruct (Hvc d Hd) as [H1 [H2 _]]. auto.
      + split; discriminate. }
  unfold load_dotenv. rewrite Htext.
  rewrite translate_newlines_id.
  2:{ intros d Hd. apply in_app_or in Hd as [Hd | [<- | []]]; [apply HL, Hd | discriminate]. }
  unfold split_lines. rewrite split_lines_acc_last by (intros d Hd; apply HL, Hd).
  change (rev [] ++ L ++ [ch_nl]) with (L ++ [ch_nl]).
  assert (HLm : L = c :: (k' ++ "="%char :: chr 34 :: v) ++ [chr 34]).
  { unfold L. simpl. rewrite <- app_assoc. reflexivity. }
  assert (Hstrip : py_strip (L ++ [ch_nl]) = L).
  { rewrite HLm. apply py_strip_trailing_space; [exact Hc | reflexivity | reflexivity]. }
  rewrite dotenv_lines_cons. unfold dotenv_line. rewrite Hstrip.
  assert (Hhead : L = c :: (k' ++ "="%char :: chr 34 :: v ++ [chr 34])) by reflexivity.
  rewrite Hhead. cbn [orb]. unfold starts_with in Hhash |- *. rewrite Hhash. cbn [negb].
  rewrite <- Hhead.
  assert (Hexists : existsb (fun d => ch_eq d "="%char) L = true).
  { apply existsb_exists. exists "="%char. split; [| reflexivity].
    unfold L. apply in_or_app. right. left. reflexivity. }
  rewrite Hexists. cbn [negb].
  unfold L. rewrite (split_eq_first (c :: k') _ Hkeq). rewrite Hks.
  rewrite (py_strip_keep (chr 34) (chr 34) v eq_refl eq_refl).
  assert (Hunq : unquote (chr 34 :: v ++ [chr 34]) = v).
  { unfold unquote. rewrite length_cons, length_app. simpl length.
    assert (Nat.leb 2 (S (length v + 1)) = true) as -> by (apply Nat.leb_le; lia).
    unfold starts_with, ends_with.
    change (chr 34 :: v ++ [chr 34]) with ((chr 34 :: v) ++ [chr 34]) at 1 2.
    rewrite rev_unit. cbn [andb orb]. change (ch_eq (chr 34) (chr 34)) with true. cbn [andb orb].
    unfold drop_ends. simpl. apply removelast_last. }
  rewrite Hunq.
  assert (Hset : environ_set env (c :: k') v =
                 (None, <[string_of_list_ascii (c :: k') := string_of_list_ascii v]> env)).
  { unfold environ_set.
    rewrite (has_nul_false (c :: k')) by (intros d Hd; apply Hkc, Hd).
    rewrite (has_nul_false v) by (intros d Hd; apply Hvc, Hd). reflexivity. }
  destruct (env !! string_of_list_ascii (c :: k')) eqn:Henv.
  - destruct Hov as [-> | Hn]; [rewrite Hset; reflexivity | congruence].
  - rewrite Hset. reflexivity.
Qed.

Lemma load_dotenv_quoted_roundtrip_witness :
  load_dotenv (Some (list_ascii_of_string "API_KEY" ++ "="%char :: chr 34 ::
                     list_ascii_of_string " a=b # c " ++ [chr 34; ch_nl])) true ∅ =
    (None, <["API_KEY" := " a=b # c "]> ∅).
Proof.
  exact (load_dotenv_quoted_roundtrip (list_ascii_of_string "API_KEY")
           (list_ascii_of_string " a=b # c ") true ∅
           ltac:(discriminate) eq_refl eq_refl eq_refl eq_refl eq_refl (or_introl eq_refl)).
Defined.

Lemma translate_newlines_in (n : nat) (l : list ascii) (c : ascii) :
  (length l <= n)%nat -> In c (translate_newlines l) -> In c l \/ c = ch_nl.
Proof.
  revert l. induction n as [| n IH]; intros l Hn Hc.
  - destruct l; [contradiction | simpl in Hn; lia].
  - destruct l as [| c0 l']; [contradiction |]. simpl in Hn. simpl in Hc.
    destruct (Ascii.eqb c0 ch_cr).
    + destruct l' as [| c2 l''].
      * destruct Hc as [<- | []]. right. reflexivity.
      * destruct (Ascii.eqb c2 ch_nl).
        -- destruct Hc as [<- | Hc]; [right; reflexivity |].
           simpl in Hn. destruct (IH l'' ltac:(lia) Hc) as [H | H]; [| right; exact H].
           left. right. right. exact H.
        -- destruct Hc as [<- | Hc]; [right; reflexivity |].
           destruct (IH (c2 :: l'') ltac:(lia) Hc) as [H | H]; [| right; exact H].
           left. right. exact H.
    + destruct Hc as [<- | Hc]; [left; left; reflexivity |].
      destruct (IH l' ltac:(lia) Hc) as [H | H]; [| right; exact H].
      left. right. exact H.
Qed.

Lemma in_rev_in {A} (l : list A) (x : A) : In x (rev l) -> In x l.
Proof. intros H. apply (proj2 (in_rev l x)). exact H. Qed.

Lemma split_lines_acc_in (cur l line : list ascii) (c : ascii) :
  In line (split_lines_acc cur l) -> In c line -> In c cur \/ In c l.
Proof.
  revert cur. induction l as [| c0 l IH]; intros cur Hline Hc; simpl in Hline.
  - destruct cur as [| x cur']; [contradiction |].
    destruct Hline as [<- | []]. left. exact (in_rev_in (x :: cur') c Hc).
  - destruct (Ascii.eqb c0 ch_nl).
    + destruct Hline as [<- | Hline].
      * apply (in_rev_in (c0 :: cur)) in Hc.
        destruct Hc as [<- | Hc]; [right; left; reflexivity | left; exact Hc].
      * destruct (IH [] Hline Hc) as [[] | H]. right. right. exact H.
    + destruct (IH (c0 :: cur) Hline Hc) as [[<- | H] | H].
      * right. left. reflexivity.
      * left. exact H.
      * right. right. exact H.
Qed.

Lemma lstrip_in (l : list ascii) (c : ascii) : In c (lstrip l) -> In c l.
Proof.
  induction l as [| c0 l IH]; simpl; [auto |].
  destruct (is_py_space c0); [intros H; right; apply IH, H | auto].
Qed.

Lemma py_strip_in (l : list ascii) (c : ascii) : In c (py_strip l) -> In c l.
Proof.
  unfold py_strip. intros H. apply in_rev_in, lstrip_in, in_rev_in, lstrip_in in H. exact H.
Qed.

Lemma dotenv_lines_app (o : bool) (env : gmap string string) (ls1 ls2 : list (list ascii)) :
  dotenv_lines o env (ls1 ++ ls2) =
    match dotenv_lines o env ls1 with
    | (Some e, env') => (Some e, env')
    | (None, env') => dotenv_lines o env' ls2
    end.
Proof.
  revert env. induction ls1 as [| line ls1 IH]; intros env; [reflexivity |].
  simpl app. rewrite !dotenv_lines_cons.
  destruct (dotenv_line o env line) as [[e |] env']; [reflexivity | apply IH].
Qed.

(** X23: a file with no [=] sets nothing: every line is skipped, and the
    environment is left as it was. *)
Theorem load_dotenv_no_assignment (text : list ascii) (override : bool)
    (env : gmap string string) :
  existsb (fun c => ch_eq c "="%char) text = false ->
  load_dotenv (Some text) override env = (None, env).
Proof.
  intros Hno. unfold load_dotenv.
  assert (Hlines : forall line, In line (split_lines (translate_newlines text)) ->
                   existsb (fun c => ch_eq c "="%char) (py_strip line) = false).
  { intros line Hl. apply not_true_iff_false. intros Hx.
    apply existsb_exists in Hx as [c [Hc Heq]]. apply ch_eq_spec in Heq. subst c.
    apply py_strip_in in Hc.
    destruct (split_lines_acc_in [] _ line _ Hl Hc) as [[] | Ht].
    destruct (translate_newlines_in (length text) text _ (le_n _) Ht) as [Hin | Hnl];
      [| discriminate].
    assert (Hy : existsb (fun c => ch_eq c "="%char) text = true)
      by (apply existsb_exists; exists "="%char; split; [exact Hin | reflexivity]).
    congruence. }
  revert Hlines. generalize (split_lines (translate_newlines text)) as lines.
  intros lines Hlines. induction lines as [| line rest IH]; [reflexivity |].
  rewrite dotenv_lines_cons.
  assert (Hline : dotenv_line override env line = (None, env)).
  { unfold dotenv_line.
    destruct ((match py_strip line with [] => true | _ => false end)
              || starts_with "#"%char (py_strip line)); [reflexivity |].
    rewrite (Hlines line (or_introl eq_refl)). reflexivity. }
  rewrite Hline. apply IH. intros l Hl. apply Hlines. right. exact Hl.
Qed.

Lemma load_dotenv_no_assignment_witness :
  load_dotenv (Some (list_ascii_of_string "# settings
API_KEY
")) true (<["HOME" := "/root"]> ∅) = (None, <["HOME" := "/root"]> ∅).
Proof. apply load_dotenv_no_assignment. reflexivity. Defined.

Lemma lstrip_snoc (l : list ascii) (d : ascii) :
  is_py_space d = false -> lstrip (l ++ [d]) = lstrip l ++ [d].
Proof.
  intros Hd. induction l as [| c l IH]; simpl.
  - rewrite Hd. reflexivity.
  - destruct (is_py_space c); [exact IH | reflexivity].
Qed.

Lemma in_removelast_in {A} (l : list A) (x : A) : In x (removelast l) -> In x l.
Proof.
  induction l as [| a l IH]; simpl; [auto |].
  destruct l as [| b l']; [intros [] |]. intros [-> | H]; [left; reflexivity | right; apply IH, H].
Qed.

Lemma unquote_in (l : list ascii) (c : ascii) : In c (unquote l) -> In c l.
Proof.
  unfold unquote, drop_ends.
  destruct (Nat.leb 2 (length l)); [| auto].
  destruct (_ || _); [| auto].
  intros H. apply in_removelast_in in H. destruct l; [contradiction | right; exact H].
Qed.

(** X24: with [override=True], a line whose key is empty ([=value])
    stops the load with [OSError] ([EINVAL]): the variables set by the
    lines before it stay set, and the lines after it are not applied. *)
Theorem dotenv_lines_empty_key_aborts (env env1 : gmap string string)
    (ls1 ls2 : list (list ascii)) (v : list ascii) :
  dotenv_lines true env ls1 = (None, env1) ->
  forallb line_char v = true ->
  dotenv_lines true env (ls1 ++ ("="%char :: v) :: ls2) = (Some (EnvOSError 22), env1).
Proof.
  intros H1 Hv. rewrite dotenv_lines_app, H1, dotenv_lines_cons.
  pose proof (line_chars _ Hv) as Hvc.
  set (w := rev (lstrip (rev v))).
  assert (Hstrip : py_strip ("="%char :: v) = "="%char :: w).
  { unfold py_strip. rewrite lstrip_keep by reflexivity. cbn [rev].
    rewrite lstrip_snoc by reflexivity. rewrite rev_unit. reflexivity. }
  assert (Hw : forall c, In c w -> In c v).
  { intros c Hc. unfold w in Hc. apply in_rev_in, lstrip_in, in_rev_in in Hc. exact Hc. }
  unfold dotenv_line. rewrite Hstrip. cbn [orb starts_with ch_eq].
  change (Ascii.eqb "="%char "#"%char) with false. cbn [orb existsb negb].
  change (ch_eq "="%char "="%char) with true. cbn [orb negb split_eq].
  change (ch_eq "="%char "="%char) with true. cbn iota.
  assert (Hset : environ_set env1 (py_strip []) (unquote (py_strip w)) =
                 (Some (EnvOSError 22), env1)).
  { unfold environ_set.
    rewrite (has_nul_false (unquote (py_strip w))).
    - reflexivity.
    - intros c Hc. apply unquote_in, py_strip_in, Hw in Hc. apply Hvc, Hc. }
  destruct (env1 !! string_of_list_ascii (py_strip [])); rewrite Hset; reflexivity.
Qed.

Lemma dotenv_lines_empty_key_aborts_witness :
  let l1 := list_ascii_of_string "A=1" in
  let l3 := list_ascii_of_string "B=2" in
  dotenv_lines true ∅ [l1] = (None, <["A" := "1"]> ∅) /\
  dotenv_lines true ∅ ([l1] ++ ("="%char :: list_ascii_of_string "x") :: [l3]) =
    (Some (EnvOSError 22), <["A" := "1"]> ∅).
Proof.
  intros l1 l3. assert (H1 : dotenv_lines true ∅ [l1] = (None, <["A" := "1"]> ∅))
    by (vm_compute; reflexivity).
  split; [exact H1 |].
  exact (dotenv_lines_empty_key_aborts ∅ _ [l1] [l3] (list_ascii_of_string "x") H1 eq_refl).
Defined.
